(** * The orchestration core of the AI operations assistant

    A shallow embedding of the planner / executor / verifier pipeline:
    [tools/base.py] (tool registry), [agents/executor.py] (step executor and
    plan runner), [agents/verifier.py] (fallback verification),
    [agents/planner.py] (fallback planner) and [agents/orchestrator.py]
    (recovery pass and outer retry).

    Effects are explicit.  Every function that touches the outside (tool
    calls, the text-generation service, the log, [asyncio.sleep], the
    class-level registry) is a state transformer over a [World].  Wall-clock
    fields ([execution_time_ms], [total_execution_time_ms], [total_time_ms])
    and the report texts ([final_output], [formatted_response]) are left out
    of the records: no statement below depends on them. *)

From stdpp Require Import gmap strings list fin_maps pretty.
From Stdlib Require Import QArith Qcanon Ascii.

Local Open Scope string_scope.
Local Open Scope Z_scope.
Local Open Scope list_scope.

(** ** Python helpers *)

(** [x or default] on an [Optional[str]]: [None] and the empty string are
    both falsy. *)
Definition str_or (x : option string) (default : string) : string :=
  match x with
  | Some s => if decide (s = "") then default else s
  | None => default
  end.

(** [str(x)] of an [Optional[str]] inside an f-string. *)
Definition fmt_opt_str (x : option string) : string :=
  match x with
  | Some s => s
  | None => "None"
  end.

(** [a / b] on two lengths, for [b > 0].  Python yields the double nearest
    to the quotient; the model keeps the exact rational, which orders and
    compares with [0.5] and [1.0] the same way for every list that fits in
    memory. *)
Definition true_div (a b : nat) : Qc :=
  Q2Qc (Z.of_nat a # Pos.of_nat b).

Definition one_half : Qc := Q2Qc (1 # 2).

(** ** Python text

    Text is modelled as a [string] of one-byte characters; [lower],
    [isupper], [isspace] and [title] are the ASCII parts of the Python
    methods. *)

Definition is_upper (c : ascii) : bool :=
  let n := nat_of_ascii c in ((65 <=? n) && (n <=? 90))%nat.

Definition is_lower (c : ascii) : bool :=
  let n := nat_of_ascii c in ((97 <=? n) && (n <=? 122))%nat.

Definition ascii_lower (c : ascii) : ascii :=
  if is_upper c then ascii_of_nat (nat_of_ascii c + 32) else c.

Definition ascii_upper (c : ascii) : ascii :=
  if is_lower c then ascii_of_nat (nat_of_ascii c - 32) else c.

(** [str.isspace] on one character: tab to carriage return, the four
    separators 28 to 31, and the blank. *)
Definition is_space (c : ascii) : bool :=
  let n := nat_of_ascii c in
  (((9 <=? n) && (n <=? 13)) || ((28 <=? n) && (n <=? 32)))%nat.

(** [s.lower()] *)
Fixpoint lower (s : string) : string :=
  match s with
  | EmptyString => EmptyString
  | String c s' => String (ascii_lower c) (lower s')
  end.

(** [sub in s] *)
Fixpoint contains (sub s : string) : bool :=
  String.prefix sub s ||
  match s with
  | EmptyString => false
  | String _ s' => contains sub s'
  end.

(** [s[:n]] *)
Definition str_take (n : nat) (s : string) : string := String.substring 0 n s.

(** [s.split()]: the maximal runs of characters that are not white space.
    [cur] is the run being read, in reverse. *)
Fixpoint split_go (cur : option string) (s : string) : list string :=
  match s with
  | EmptyString =>
      match cur with
      | Some w => [String.rev w]
      | None => []
      end
  | String c s' =>
      if is_space c then
        match cur with
        | Some w => String.rev w :: split_go None s'
        | None => split_go None s'
        end
      else
        split_go (Some (String c (default EmptyString cur))) s'
  end.

Definition split (s : string) : list string := split_go None s.



(** [sep.join(l)] *)
Fixpoint join (sep : string) (l : list string) : string :=
  match l with
  | [] => ""
  | [w] => w
  | w :: l' => w +:+ sep +:+ join sep l'
  end.

(** [s.title()]: a letter that follows a letter is lowered, any other
    letter is raised. *)
Fixpoint title_go (prev_cased : bool) (s : string) : string :=
  match s with
  | EmptyString => EmptyString
  | String c s' =>
      let cased := is_upper c || is_lower c in
      String (if prev_cased then ascii_lower c else ascii_upper c)
             (title_go cased s')
  end.

Definition title (s : string) : string := title_go false s.

Fixpoint lstrip (chars : list ascii) (s : string) : string :=
  match s with
  | EmptyString => EmptyString
  | String c s' => if bool_decide (c ∈ chars) then lstrip chars s' else s
  end.

(** [s.strip(chars)] *)
Definition strip (chars : list ascii) (s : string) : string :=
  String.rev (lstrip chars (String.rev (lstrip chars s))).

(** [x in l] on a list of strings *)
Definition str_in (x : string) (l : list string) : bool :=
  bool_decide (x ∈ l).

(** [any(kw in s for kw in kws)] *)
Definition any_in (kws : list string) (s : string) : bool :=
  existsb (fun kw => contains kw s) kws.

(** Outcome of code that may raise. *)
Inductive Result (A : Type) : Type :=
  | Ok (a : A)
  | Raised (msg : string).
Arguments Ok {A} a.
Arguments Raised {A} msg.

(** ** Data model *)

(** Modelled from the spec: [StepStatus] is declared in the [models]
    module, which is not part of the sources; the spec gives the
    enumeration PENDING, COMPLETED, FAILED. *)
Inductive StepStatus : Set := PENDING | COMPLETED | FAILED.

Global Instance StepStatus_eq_dec : EqDecision StepStatus.
Proof. solve_decision. Defined.

(** Scalar values of a step's [parameters] mapping. *)
Inductive Value : Type :=
  | VNull
  | VBool (b : bool)
  | VInt (n : Z)
  | VStr (s : string).

Section Pipeline.

(** [ToolType] is declared in the [models] module as well.  It is taken
    as a parameter: any enumeration with the two members the sources name,
    together with the text an f-string prints for a member. *)
Context {ToolType : Type} `{Countable ToolType}.
Variables GITHUB WEATHER : ToolType.
Variable format_tool : ToolType -> string.

(** The [data] payload of a tool outcome ([Optional[Any]]). *)
Context {Payload : Type}.

Record PlanStep : Type := mkPlanStep {
  step_number : Z;
  description : string;
  tool : ToolType;
  parameters : gmap string Value;
  depends_on : list Z
}.

Record ExecutionPlan : Type := mkExecutionPlan {
  task_summary : string;
  steps : list PlanStep;
  reasoning : string
}.

Record ToolResult : Type := mkToolResult {
  tr_tool : ToolType;
  tr_success : bool;
  tr_data : option Payload;
  tr_error : option string
}.

(** Modelled from the spec: the defaults of [StepResult] ([tool_result]
    absent, [retry_count] 0, [error_message] absent) are declared in the
    [models] module; the constructors below spell them out. *)
Record StepResult : Type := mkStepResult {
  sr_step_number : Z;
  status : StepStatus;
  tool_result : option ToolResult;
  retry_count : nat;
  error_message : option string
}.

Record ExecutionResult : Type := mkExecutionResult {
  er_plan : ExecutionPlan;
  step_results : list StepResult;
  er_success : bool;
  partial_success : bool
}.

Record VerificationResult : Type := mkVerificationResult {
  is_valid : bool;
  completeness_score : Qc;
  issues : list string;
  suggestions : list string
}.

Record AgentResponse : Type := mkAgentResponse {
  ar_task : string;
  ar_plan : ExecutionPlan;
  execution : ExecutionResult;
  verification : VerificationResult;
  ar_success : bool
}.

(** ** Tools and the world *)

Record BaseTool : Type := mkBaseTool {
  name : string;
  tool_type : ToolType;
  tool_description : string
}.

Definition GitHubTool : BaseTool :=
  mkBaseTool "GitHub" GITHUB
    "Search GitHub repositories and fetch repository information".

Definition WeatherTool : BaseTool :=
  mkBaseTool "Weather" WEATHER
    "Get current weather information for a city".

(** What one call [tool.safe_execute( **parameters)] meets: [execute]
    returns a result, [execute] raises (which [safe_execute] turns into a
    failed result), or the call raises past [safe_execute] (binding the
    keyword arguments fails, for instance on a parameter named [self]). *)
Inductive ExecOutcome : Type :=
  | Returns (r : ToolResult)
  | Raises (msg : string)
  | Escapes (msg : string).

(** Observable effects, in the order they happen. *)
Inductive Event : Type :=
  | LogPlanning
  | LogExecuting (n : Z)
  | ToolCall (t : ToolType) (p : gmap string Value)
  | Sleep (seconds : nat)
  | LogVerifying
  | LogPhase4
  | LogAttempt (attempt total : Z).

(** [registry] is the class attribute [ToolRegistry._tools]: one mapping
    for the whole process.  [tool_calls] and [llm_calls] count the calls
    made so far and index the answers of the outside world. *)
Record World : Type := mkWorld {
  registry : gmap ToolType BaseTool;
  tool_calls : nat;
  llm_calls : nat;
  log : list Event
}.

(** The outside world: the answer of the [n]-th tool call and of the
    [n]-th call to [LLMClient.generate] ([None] when it raises). *)
Variable execute : BaseTool -> gmap string Value -> nat -> ExecOutcome.
Variable llm_plan : string -> nat -> option ExecutionPlan.
Variable llm_verify :
  string -> ExecutionResult -> nat -> option VerificationResult.

(** ** A small state monad *)

Definition Exec (A : Type) : Type := World -> A * World.

Definition ret {A} (a : A) : Exec A := fun w => (a, w).

Definition bind {A B} (m : Exec A) (k : A -> Exec B) : Exec B :=
  fun w => let (a, w') := m w in k a w'.

Notation "x <- m ;; k" := (bind m (fun x => k))
  (at level 100, m at next level, right associativity).
Notation "m ;;; k" := (bind m (fun _ => k))
  (at level 100, right associativity).

Definition emit (e : Event) : Exec unit :=
  fun w => (tt, mkWorld (registry w) (tool_calls w) (llm_calls w) (log w ++ [e])).

Definition set_registry (r : gmap ToolType BaseTool) : Exec unit :=
  fun w => (tt, mkWorld r (tool_calls w) (llm_calls w) (log w)).

Definition next_tool_call : Exec nat :=
  fun w => (tool_calls w, mkWorld (registry w) (S (tool_calls w)) (llm_calls w) (log w)).

Definition next_llm_call : Exec nat :=
  fun w => (llm_calls w, mkWorld (registry w) (tool_calls w) (S (llm_calls w)) (log w)).

(** ** tools/base.py *)

Definition ToolRegistry_clear : Exec unit := set_registry ∅.

Definition ToolRegistry_register (t : BaseTool) : Exec unit :=
  fun w => set_registry (<[tool_type t := t]> (registry w)) w.

Definition ToolRegistry_get (t : ToolType) : Exec (option BaseTool) :=
  fun w => (registry w !! t, w).

Definition _create_result (self : BaseTool) (success : bool)
    (data : option Payload) (error : option string) : ToolResult :=
  mkToolResult (tool_type self) success data error.

Definition safe_execute (self : BaseTool) (kwargs : gmap string Value)
    : Exec (Result ToolResult) :=
  emit (ToolCall (tool_type self) kwargs) ;;;
  n <- next_tool_call ;;
  match execute self kwargs n with
  | Returns r => ret (Ok r)
  | Raises msg => ret (Ok (_create_result self false None (Some msg)))
  | Escapes msg => ret (Raised msg)
  end.

(** ** agents/executor.py *)

Definition max_retries : nat := 3.

Definition _register_tools : Exec unit :=
  ToolRegistry_clear ;;;
  ToolRegistry_register GitHubTool ;;;
  ToolRegistry_register WeatherTool.

Definition ExecutorAgent_init : Exec unit := _register_tools.

Definition _dependencies_met (deps : list Z)
    (completed : gmap Z StepResult) : bool :=
  forallb (fun dep =>
    match completed !! dep with
    | None => false
    | Some r => bool_decide (status r = COMPLETED)
    end) deps.

(** The [while retry_count < self.max_retries] loop of [_execute_step].
    [remaining] is [max_retries - retry_count], the number of iterations
    the loop can still make; it is what the recursion descends on. *)
Fixpoint retry_loop (self : BaseTool) (step : PlanStep) (remaining : nat)
    (retry_count : nat) (last_error : option string) : Exec StepResult :=
  match remaining with
  | O =>
      ret (mkStepResult (step_number step) FAILED None retry_count
             (Some (str_or last_error "Max retries exceeded")))
  | S remaining' =>
      outcome <- safe_execute self (parameters step) ;;
      match outcome with
      | Ok tool_result =>
          if tr_success tool_result then
            ret (mkStepResult (step_number step) COMPLETED
                   (Some tool_result) retry_count None)
          else
            let last_error := tr_error tool_result in
            let retry_count := S retry_count in
            (if (retry_count <? max_retries)%nat
             then emit (Sleep (1 * retry_count))
             else ret tt) ;;;
            retry_loop self step remaining' retry_count last_error
      | Raised e =>
          retry_loop self step remaining' (S retry_count) (Some e)
      end
  end.

Definition _execute_step (step : PlanStep) : Exec StepResult :=
  emit (LogExecuting (step_number step)) ;;;
  found <- ToolRegistry_get (tool step) ;;
  match found with
  | None =>
      ret (mkStepResult (step_number step) FAILED None 0
             (Some ("Tool not found: " +:+ format_tool (tool step))))
  | Some self => retry_loop self step max_retries 0 None
  end.

(** [sum(1 for r in step_results if r.status == StepStatus.COMPLETED)] *)
Definition count_completed (rs : list StepResult) : nat :=
  length (filter (fun r => status r = COMPLETED) rs).

Definition count_failed (rs : list StepResult) : nat :=
  length (filter (fun r => status r = FAILED) rs).

(** The [for step in plan.steps] loop of [ExecutorAgent.run], carrying
    [step_results] and [completed_steps]. *)
Fixpoint run_loop (todo : list PlanStep) (step_results : list StepResult)
    (completed_steps : gmap Z StepResult)
    : Exec (list StepResult * gmap Z StepResult) :=
  match todo with
  | [] => ret (step_results, completed_steps)
  | step :: todo' =>
      result <-
        (if negb (_dependencies_met (depends_on step) completed_steps)
         then ret (mkStepResult (step_number step) FAILED None 0
                     (Some "Dependencies not met"))
         else _execute_step step) ;;
      run_loop todo' (step_results ++ [result])
               (<[step_number step := result]> completed_steps)
  end.

Definition ExecutorAgent_run (plan : ExecutionPlan) : Exec ExecutionResult :=
  acc <- run_loop (steps plan) [] ∅ ;;
  let step_results := fst acc in
  let success_count := count_completed step_results in
  let all_success := (success_count =? length step_results)%nat in
  let partial := (0 <? success_count)%nat && negb all_success in
  ret (mkExecutionResult plan step_results all_success partial).

(** ** agents/verifier.py *)

Definition issue_line (failed : StepResult) : string :=
  "Step " +:+ pretty (sr_step_number failed) +:+ " failed: "
    +:+ fmt_opt_str (error_message failed).

Definition _create_fallback_verification (task : string)
    (execution_result : ExecutionResult) : VerificationResult :=
  let completed_steps :=
    filter (fun r => status r = COMPLETED) (step_results execution_result) in
  let failed_steps :=
    filter (fun r => status r = FAILED) (step_results execution_result) in
  let total_steps := length (step_results execution_result) in
  let completeness :=
    if (0 <? total_steps)%nat
    then true_div (length completed_steps) total_steps
    else 0%Qc in
  let issues := map issue_line failed_steps in
  mkVerificationResult (bool_decide (one_half < completeness)%Qc)
    completeness issues [].

(** [VerifierAgent.run]: whatever goes wrong inside the [try] (building
    the digest, the service, decoding its answer) ends in the fallback. *)
Definition VerifierAgent_run (task : string)
    (execution_result : ExecutionResult) : Exec VerificationResult :=
  emit LogVerifying ;;;
  n <- next_llm_call ;;
  match llm_verify task execution_result n with
  | Some verification => ret verification
  | None => ret (_create_fallback_verification task execution_result)
  end.

(** ** agents/planner.py *)

Definition github_keywords : list string :=
  ["github"; "repo"; "repository"; "code"; "project"; "star"].

Definition weather_keywords : list string :=
  ["weather"; "temperature"; "forecast"; "climate"; "rain"; "sunny"].

Definition skip_words : list string :=
  ["find"; "search"; "get"; "show"; "list"; "the"; "a"; "an";
   "for"; "in"; "on"; "github"; "weather"; "and"; "with"; "top"].

Definition common_cities : list string :=
  ["new york"; "london"; "tokyo"; "paris"; "berlin"; "sydney";
   "mumbai"; "singapore"; "dubai"; "san francisco"; "los angeles";
   "chicago"; "seattle"; "boston"; "toronto"; "vancouver"].

Definition _extract_search_query (task context : string) : string :=
  let words := split task in
  let query_words :=
    List.filter (fun w => negb (str_in (lower w) skip_words)) words in
  match query_words with
  | [] => "popular repositories"
  | _ => join " " (take 5 query_words)
  end.

(** The [for i, word in enumerate(words)] loop of [_extract_city];
    [words] is [words[i:]].  Indexing the stripped word at 0 raises when
    nothing is left of it. *)
Fixpoint city_after_preposition (words : list string) : Result string :=
  match words with
  | [] => Ok "London"
  | word :: rest =>
      if str_in (lower word) ["in"; "for"; "at"] then
        match rest with
        | next :: _ =>
            match strip ["."; ","; "!"; "?"]%char next with
            | EmptyString => Raised "string index out of range"
            | String c _ as potential_city =>
                if is_upper c then Ok potential_city
                else city_after_preposition rest
            end
        | [] => city_after_preposition rest
        end
      else city_after_preposition rest
  end.

Definition _extract_city (task : string) : Result string :=
  let task_lower := lower task in
  match List.find (fun city => contains city task_lower) common_cities with
  | Some city => Ok (title city)
  | None => city_after_preposition (split task)
  end.

Definition _create_fallback_plan (task : string) : Result ExecutionPlan :=
  let task_lower := lower task in
  let steps0 : list PlanStep := [] in
  let step_num0 := 1 in
  let '(steps1, step_num1) :=
    if any_in github_keywords task_lower then
      let query := _extract_search_query task "github" in
      (steps0 ++ [mkPlanStep step_num0 "Search GitHub repositories" GITHUB
                    (<["query" := VStr query]> (<["limit" := VInt 5]> ∅)) []],
       step_num0 + 1)
    else (steps0, step_num0) in
  let with_weather : Result (list PlanStep * Z) :=
    if any_in weather_keywords task_lower then
      match _extract_city task with
      | Ok city =>
          Ok (steps1 ++ [mkPlanStep step_num1 ("Get weather for " +:+ city)
                           WEATHER (<["city" := VStr city]> ∅) []],
              step_num1 + 1)
      | Raised e => Raised e
      end
    else Ok (steps1, step_num1) in
  match with_weather with
  | Raised e => Raised e
  | Ok (steps2, _) =>
      let steps3 :=
        match steps2 with
        | [] =>
            [mkPlanStep 1 "Search GitHub for relevant repositories" GITHUB
               (<["query" := VStr (str_take 50 task)]> (<["limit" := VInt 5]> ∅))
               []]
        | _ => steps2
        end in
      Ok (mkExecutionPlan (str_take 200 task) steps3
            "Fallback plan generated from keyword extraction")
  end.

(** [PlannerAgent.run]: an exception of the fallback leaves the handler
    it was raised in and reaches the caller. *)
Definition PlannerAgent_run (task : string) : Exec (Result ExecutionPlan) :=
  n <- next_llm_call ;;
  match llm_plan task n with
  | Some plan => ret (Ok plan)
  | None => ret (_create_fallback_plan task)
  end.

(** ** agents/orchestrator.py

    The progress callbacks are unset, as the constructor leaves them. *)

Definition AgentOrchestrator_init : Exec unit := ExecutorAgent_init.

(** The inner [for i, r in enumerate(...)] loop of [_retry_failed_steps]:
    the first entry with the step's number is overwritten. *)
Fixpoint replace_first (n : Z) (new_result : StepResult)
    (rs : list StepResult) : list StepResult :=
  match rs with
  | [] => []
  | r :: rs' =>
      if decide (sr_step_number r = n) then new_result :: rs'
      else r :: replace_first n new_result rs'
  end.

(** The [for step, old_result in failed_steps] loop. *)
Fixpoint retry_each (failed_steps : list (PlanStep * StepResult))
    (rs : list StepResult) : Exec (list StepResult) :=
  match failed_steps with
  | [] => ret rs
  | (step, old_result) :: failed_steps' =>
      new_result <- _execute_step step ;;
      retry_each failed_steps' (replace_first (step_number step) new_result rs)
  end.

Definition _retry_failed_steps (task : string) (plan : ExecutionPlan)
    (execution_result : ExecutionResult) (verification : VerificationResult)
    : Exec (ExecutionResult * VerificationResult) :=
  let failed_steps :=
    List.filter (fun sr => bool_decide (status (snd sr) = FAILED))
      (zip (steps plan) (step_results execution_result)) in
  match failed_steps with
  | [] => ret (execution_result, verification)
  | _ =>
      rs <- retry_each failed_steps (step_results execution_result) ;;
      let success_count := count_completed rs in
      let success := (success_count =? length rs)%nat in
      let partial := (0 <? success_count)%nat && negb success in
      let execution_result :=
        mkExecutionResult (er_plan execution_result) rs success partial in
      verification <- VerifierAgent_run task execution_result ;;
      ret (execution_result, verification)
  end.

Definition _execute_with_callbacks (plan : ExecutionPlan)
    : Exec ExecutionResult :=
  ExecutorAgent_run plan.

Definition AgentOrchestrator_run (task : string)
    : Exec (Result AgentResponse) :=
  emit LogPlanning ;;;
  planned <- PlannerAgent_run task ;;
  match planned with
  | Raised e => ret (Raised e)
  | Ok plan =>
      execution_result <- _execute_with_callbacks plan ;;
      verification <- VerifierAgent_run task execution_result ;;
      ev <-
        (if negb (er_success execution_result)
            && bool_decide (completeness_score verification < 1)%Qc
         then emit LogPhase4 ;;;
              _retry_failed_steps task plan execution_result verification
         else ret (execution_result, verification)) ;;
      let execution_result := fst ev in
      let verification := snd ev in
      ret (Ok (mkAgentResponse task plan execution_result verification
                 (is_valid verification && er_success execution_result)))
  end.

(** [if best_response is None or response...score > best_response...score:
    best_response = response] *)
Definition keep_best (best_response : option AgentResponse)
    (response : AgentResponse) : option AgentResponse :=
  match best_response with
  | None => Some response
  | Some best =>
      if bool_decide
           (completeness_score (verification best)
            < completeness_score (verification response))%Qc
      then Some response
      else Some best
  end.

(** The [for attempt in range(max_attempts)] loop of [run_with_retry];
    [attempts] is what is left of the range. *)
Fixpoint retry_attempts (task : string) (max_attempts : Z)
    (attempts : list Z) (best_response : option AgentResponse)
    : Exec (Result (option AgentResponse)) :=
  match attempts with
  | [] => ret (Ok best_response)
  | attempt :: attempts' =>
      emit (LogAttempt (attempt + 1) max_attempts) ;;;
      outcome <- AgentOrchestrator_run task ;;
      match outcome with
      | Raised e => ret (Raised e)
      | Ok response =>
          if ar_success response then ret (Ok (Some response))
          else
            retry_attempts task max_attempts attempts'
              (keep_best best_response response)
      end
  end.

Definition run_with_retry (task : string) (max_attempts : Z)
    : Exec (Result (option AgentResponse)) :=
  retry_attempts task max_attempts (seqZ 0 max_attempts) None.

(** ** Reference readings

    Definitions that follow the words of the specification, to compare the
    code with. *)

(** The step executor as the specification describes it,
    [executeStep(step, dependencyResults)]: the dependency check against a
    snapshot comes first, then the registry and the attempts. *)
Definition executeStep (step : PlanStep)
    (dependencyResults : gmap Z StepResult) : Exec StepResult :=
  if negb (_dependencies_met (depends_on step) dependencyResults)
  then ret (mkStepResult (step_number step) FAILED None 0
              (Some "Dependencies not met"))
  else _execute_step step.

(** Recovery as the specification describes it: every failed entry is
    replaced, where it stands, by the outcome of [executeStep] on the
    dependency snapshot of the original run. *)
Fixpoint recover_against_snapshot (snapshot : gmap Z StepResult)
    (pairs : list (PlanStep * StepResult)) : Exec (list StepResult) :=
  match pairs with
  | [] => ret []
  | (step, old_result) :: pairs' =>
      r <- (if decide (status old_result = FAILED)
            then executeStep step snapshot
            else ret old_result) ;;
      rs <- recover_against_snapshot snapshot pairs' ;;
      ret (r :: rs)
  end.

(** Recovery by position: every failed entry is replaced, where it stands,
    by the outcome of one [_execute_step] of its step. *)
Fixpoint recover_in_place (pairs : list (PlanStep * StepResult))
    : Exec (list StepResult) :=
  match pairs with
  | [] => ret []
  | (step, old_result) :: pairs' =>
      r <- (if decide (status old_result = FAILED)
            then _execute_step step
            else ret old_result) ;;
      rs <- recover_in_place pairs' ;;
      ret (r :: rs)
  end.

(** The outcomes of the attempts of [range(max_attempts)] made one after
    the other, whatever they return, each with the world it leaves. *)
Fixpoint attempts_of (task : string) (max_attempts : Z) (attempts : list Z)
    (w : World) : list (Result AgentResponse * World) :=
  match attempts with
  | [] => []
  | attempt :: attempts' =>
      let rw :=
        AgentOrchestrator_run task
          (snd (emit (LogAttempt (attempt + 1) max_attempts) w)) in
      rw :: attempts_of task max_attempts attempts' (snd rw)
  end.

(** How many times the log records that the recovery phase was entered. *)
Definition phase4_count (l : list Event) : nat :=
  length (List.filter (fun e => match e with LogPhase4 => true | _ => false end) l).

(** A tool call yields a failing outcome: [execute] returns a result that
    is not a success, or raises and [safe_execute] reports the failure. *)
Definition failing_outcome (o : ExecOutcome) : Prop :=
  match o with
  | Returns r => tr_success r = false
  | Raises _ => True
  | Escapes _ => False
  end.

(** The error text a tool call leaves in [last_error]. *)
Definition outcome_error (o : ExecOutcome) : option string :=
  match o with
  | Returns r => tr_error r
  | Raises msg => Some msg
  | Escapes msg => Some msg
  end.

(** A computation that leaves the number of recovery entries in the log
    as it found it. *)
Definition keeps_phase4 {A : Type} (m : Exec A) : Prop :=
  forall w, phase4_count (log (snd (m w))) = phase4_count (log w).

(** A copy of a step with other dependencies. *)
Definition with_depends_on (step : PlanStep) (deps : list Z) : PlanStep :=
  mkPlanStep (step_number step) (description step) (tool step)
    (parameters step) deps.

(** ** The rest of agents/executor.py *)

(** [ExecutorAgent.execute_single_tool]: one call of a tool, outside any
    plan. *)
Definition execute_single_tool (t : ToolType) (params : gmap string Value)
    : Exec (Result ToolResult) :=
  found <- ToolRegistry_get t ;;
  match found with
  | None =>
      ret (Ok (mkToolResult t false None
                 (Some ("Tool not found: " +:+ format_tool t))))
  | Some self => safe_execute self params
  end.

(** ** Measures and shapes used in the statements *)

(** The seconds the log records as slept. *)
Definition slept (l : list Event) : nat :=
  fold_right (fun e acc => match e with Sleep n => (n + acc)%nat | _ => acc end)
    0%nat l.

(** What [k] failed calls leave in the log, from retry count [count] on:
    each call is followed by a wait of the new count. *)
Fixpoint backoff_trace (call : Event) (count k : nat) : list Event :=
  match k with
  | O => []
  | S k' => call :: Sleep (S count) :: backoff_trace call (S count) k'
  end.

(** The seconds the retry loop can still sleep with [remaining] iterations
    to go from retry count [count]: the waits it makes if every call
    fails. *)
Fixpoint backoff_budget (remaining count : nat) : nat :=
  match remaining with
  | O => 0
  | S remaining' =>
      ((if (S count <? max_retries)%nat then S count else 0)
       + backoff_budget remaining' (S count))%nat
  end.

(** A computation that leaves the registry and the count of generation
    calls alone, makes at most [calls] tool calls and sleeps at most
    [seconds] seconds. *)
Definition bounded_effect {A : Type} (calls seconds : nat) (m : Exec A)
    : Prop :=
  forall w,
    let w' := snd (m w) in
    registry w' = registry w
    /\ llm_calls w' = llm_calls w
    /\ (tool_calls w <= tool_calls w' <= tool_calls w + calls)%nat
    /\ (slept (log w') <= slept (log w) + seconds)%nat.

(** What the plan runner and the recovery pass keep of every step result:
    a COMPLETED result carries a successful tool outcome, no error and
    fewer retries than the budget; a FAILED one carries no outcome, an
    error text that is not empty, and no retry at all or the whole
    budget. *)
Definition settled (r : StepResult) : Prop :=
  match status r with
  | COMPLETED =>
      (exists tr, tool_result r = Some tr /\ tr_success tr = true)
      /\ error_message r = None
      /\ (retry_count r < max_retries)%nat
  | FAILED =>
      tool_result r = None
      /\ (exists e, error_message r = Some e /\ e <> "")
      /\ (retry_count r = 0%nat \/ retry_count r = max_retries)
  | PENDING => False
  end.

(** [run_with_retry] returned [None]. *)
Definition returned_nothing (r : Result (option AgentResponse)) : bool :=
  match r with
  | Ok None => true
  | _ => false
  end.

(** The latest result with a step number in a list of results. *)
Definition latest (n : Z) (rs : list StepResult) : option StepResult :=
  last (filter (fun r => sr_step_number r = n) rs).

(** The result of a step whose dependencies are not met. *)
Definition unmet_result (step : PlanStep) : StepResult :=
  mkStepResult (step_number step) FAILED None 0 (Some "Dependencies not met").

(** The steps of [todo] depend only on step numbers of [seen] and of
    earlier steps of [todo]. *)
Fixpoint ordered_from (seen : list Z) (todo : list PlanStep) : Prop :=
  match todo with
  | [] => True
  | step :: todo' =>
      Forall (fun dep => dep ∈ seen) (depends_on step)
      /\ ordered_from (step_number step :: seen) todo'
  end.

End Pipeline.

(** ** Sample inputs

    A three-member tool enumeration, two behaviours of the outside world and
    a few plans, used to run the model on concrete inputs. *)

Inductive SampleTool : Set := ST_GITHUB | ST_WEATHER | ST_MAPS.

Global Instance SampleTool_eq_dec : EqDecision SampleTool.
Proof. solve_decision. Defined.

Definition SampleTool_to_nat (t : SampleTool) : nat :=
  match t with ST_GITHUB => 0 | ST_WEATHER => 1 | ST_MAPS => 2 end.

Definition SampleTool_of_nat (n : nat) : option SampleTool :=
  match n with
  | O => Some ST_GITHUB
  | S O => Some ST_WEATHER
  | S (S O) => Some ST_MAPS
  | _ => None
  end.

Global Instance SampleTool_countable : Countable SampleTool.
Proof.
  refine (inj_countable SampleTool_to_nat SampleTool_of_nat _).
  intros []; reflexivity.
Defined.

Definition sample_format (t : SampleTool) : string :=
  match t with
  | ST_GITHUB => "github"
  | ST_WEATHER => "weather"
  | ST_MAPS => "maps"
  end.

Definition rate_limited : string := "GitHub API error: 403 (Rate limit exceeded)".

(** Every tool call returns a failed outcome. *)
Definition always_failing (self : @BaseTool SampleTool)
    (kwargs : gmap string Value) (n : nat) : @ExecOutcome SampleTool string :=
  Returns (mkToolResult (tool_type self) false None (Some rate_limited)).

(** The repository search is rate limited, every other tool answers. *)
Definition github_down (self : @BaseTool SampleTool)
    (kwargs : gmap string Value) (n : nat) : @ExecOutcome SampleTool string :=
  match tool_type self with
  | ST_GITHUB =>
      Returns (mkToolResult ST_GITHUB false None (Some rate_limited))
  | t => Returns (mkToolResult t true (Some "payload") None)
  end.

(** The text-generation service is unavailable. *)
Definition no_plan (task : string) (n : nat)
    : option (@ExecutionPlan SampleTool) := None.

Definition no_verdict (task : string)
    (er : @ExecutionResult SampleTool string) (n : nat)
    : option VerificationResult := None.

Definition sample_world : @World SampleTool _ _ :=
  mkWorld ∅ 0 0 [].

(** The world once an orchestrator has been constructed. *)
Definition ready_world : @World SampleTool _ _ :=
  snd (AgentOrchestrator_init ST_GITHUB ST_WEATHER sample_world).

Definition search_step : @PlanStep SampleTool :=
  mkPlanStep 1 "Search GitHub repositories" ST_GITHUB
    (<["query" := VStr "python"]> ∅) [].

Definition weather_step : @PlanStep SampleTool :=
  mkPlanStep 2 "Get weather for London" ST_WEATHER
    (<["city" := VStr "London"]> ∅) [1].

Definition maps_step : @PlanStep SampleTool :=
  mkPlanStep 1 "Locate the city" ST_MAPS ∅ [].

Definition chained_plan : @ExecutionPlan SampleTool :=
  mkExecutionPlan "repositories, then weather" [search_step; weather_step] "".

(** The text-generation service answers every planning request with
    [chained_plan]. *)
Definition plans_chained (task : string) (n : nat)
    : option (@ExecutionPlan SampleTool) := Some chained_plan.

(** The first six tool calls fail, the later ones answer. *)
Definition recovering (self : @BaseTool SampleTool)
    (kwargs : gmap string Value) (n : nat) : @ExecOutcome SampleTool string :=
  if (n <? 6)%nat
  then Returns (mkToolResult (tool_type self) false None (Some rate_limited))
  else Returns (mkToolResult (tool_type self) true (Some "payload") None).

Definition search_plan : @ExecutionPlan SampleTool :=
  mkExecutionPlan "repositories" [search_step] "".

Definition plans_search (task : string) (n : nat)
    : option (@ExecutionPlan SampleTool) := Some search_plan.

(** The two attempts of [run_with_retry] on [search_plan] in that world. *)
Definition first_try : Result (@AgentResponse SampleTool string) * World :=
  AgentOrchestrator_run ST_GITHUB ST_WEATHER sample_format recovering
    plans_search no_verdict "repos" (snd (emit (LogAttempt 1 2) ready_world)).

Definition second_try : Result (@AgentResponse SampleTool string) * World :=
  AgentOrchestrator_run ST_GITHUB ST_WEATHER sample_format recovering
    plans_search no_verdict "repos"
    (snd (emit (LogAttempt 2 2) (snd first_try))).

(** The response an attempt returned (an empty one if it raised). *)
Definition response_of (r : Result (@AgentResponse SampleTool string))
    : AgentResponse :=
  match r with
  | Ok response => response
  | Raised _ =>
      mkAgentResponse "" search_plan
        (mkExecutionResult search_plan [] true false)
        (mkVerificationResult false 0%Qc [] []) false
  end.

(** Four results, the last one failed. *)
Definition three_of_four : @ExecutionResult SampleTool string :=
  mkExecutionResult chained_plan
    [mkStepResult 1 COMPLETED None 0 None;
     mkStepResult 2 COMPLETED None 1 None;
     mkStepResult 3 COMPLETED None 0 None;
     mkStepResult 4 FAILED None 3 (Some "City not found: Atlantis")]
    false true.

Definition unregistered_plan : @ExecutionPlan SampleTool :=
  mkExecutionPlan "map, then weather" [maps_step; weather_step] "".

(** The answer of a tool that works. *)
Definition payload_result (t : SampleTool) : @ToolResult SampleTool string :=
  mkToolResult t true (Some "payload") None.

(** Every tool call answers. *)
Definition always_answering (self : @BaseTool SampleTool)
    (kwargs : gmap string Value) (n : nat) : @ExecOutcome SampleTool string :=
  Returns (payload_result (tool_type self)).

(** The first two tool calls fail, the later ones answer. *)
Definition answers_third (self : @BaseTool SampleTool)
    (kwargs : gmap string Value) (n : nat) : @ExecOutcome SampleTool string :=
  if (n <? 2)%nat
  then Returns (mkToolResult (tool_type self) false None (Some rate_limited))
  else Returns (payload_result (tool_type self)).

(** Every tool call raises before [execute] is entered. *)
Definition crashing (self : @BaseTool SampleTool)
    (kwargs : gmap string Value) (n : nat) : @ExecOutcome SampleTool string :=
  Escapes "safe_execute() got multiple values for argument 'self'".

(** A result of [chained_plan] whose search answered and whose weather
    lookup failed. *)
Definition half_done : @ExecutionResult SampleTool string :=
  mkExecutionResult chained_plan
    [mkStepResult 1 COMPLETED (Some (payload_result ST_GITHUB)) 0 None;
     mkStepResult 2 FAILED None 3 (Some rate_limited)]
    false true.

(** The text-generation service plans on its first call only. *)
Definition plans_once (task : string) (n : nat)
    : option (@ExecutionPlan SampleTool) :=
  if (n =? 0)%nat then Some search_plan else None.

(** Two attempts on a task for which the fallback planner raises: the
    first one is planned by the service, the second one by the fallback. *)
Definition failed_try : Result (@AgentResponse SampleTool string) * World :=
  AgentOrchestrator_run ST_GITHUB ST_WEATHER sample_format always_failing
    plans_once no_verdict "weather in ..."
    (snd (emit (LogAttempt 1 3) ready_world)).

Definition raising_try : Result (@AgentResponse SampleTool string) * World :=
  AgentOrchestrator_run ST_GITHUB ST_WEATHER sample_format always_failing
    plans_once no_verdict "weather in ..."
    (snd (emit (LogAttempt 2 3) (snd failed_try))).

(** The plan an answer of the planner holds (an empty one if it raised). *)
Definition plan_of (r : Result (@ExecutionPlan SampleTool))
    : ExecutionPlan :=
  match r with
  | Ok plan => plan
  | Raised _ => mkExecutionPlan "" [] ""
  end.

(** The fallback plan of a task with both kinds of keyword. *)
Definition both_plan : @ExecutionPlan SampleTool :=
  plan_of (_create_fallback_plan ST_GITHUB ST_WEATHER
             "Find Python repos and weather in London").

(** * Properties *)

Section Properties.

#[local] Set Default Proof Using "Type".

Context {ToolType : Type} `{Countable ToolType} {Payload : Type}.
Variables GITHUB WEATHER : ToolType.
Variable format_tool : ToolType -> string.
Variable execute :
  @BaseTool ToolType -> gmap string Value -> nat -> @ExecOutcome ToolType Payload.
Variable llm_plan : string -> nat -> option (@ExecutionPlan ToolType).
Variable llm_verify :
  string -> @ExecutionResult ToolType Payload -> nat -> option VerificationResult.

(** ** The step executor *)

(** One tool call that fails: the world it leaves and the error it hands
    to the loop. *)
Lemma safe_execute_failing (self : BaseTool) kwargs (w : World) :
  failing_outcome (execute self kwargs (tool_calls w)) ->
  exists r,
    safe_execute execute self kwargs w
    = (Ok r, mkWorld (registry w) (S (tool_calls w)) (llm_calls w)
               (log w ++ [ToolCall (tool_type self) kwargs]))
    /\ tr_success r = false
    /\ tr_error r = outcome_error (execute self kwargs (tool_calls w)).
Proof.
  intros Hfail. unfold safe_execute, bind, emit, next_tool_call, ret. cbn.
  destruct (execute self kwargs (tool_calls w)) as [r|msg|msg]; cbn in *.
  - exists r. auto.
  - eexists. split; [reflexivity|]. auto.
  - contradiction.
Qed.

(** [retry_loop] on [max_retries - retry_count] remaining iterations is
    the [while retry_count < self.max_retries] loop: it satisfies the
    loop's unfolding, test included. *)
Lemma retry_loop_is_while (self : BaseTool) (step : PlanStep) (count : nat)
    last_error :
  retry_loop execute self step (max_retries - count) count last_error
  = if (count <? max_retries)%nat then
      bind (safe_execute execute self (parameters step)) (fun outcome =>
        match outcome with
        | Ok tool_result =>
            if tr_success tool_result then
              ret (mkStepResult (step_number step) COMPLETED
                     (Some tool_result) count None)
            else
              bind (if (S count <? max_retries)%nat
                    then emit (Sleep (1 * S count)) else ret tt)
                (fun _ => retry_loop execute self step
                            (max_retries - S count) (S count)
                            (tr_error tool_result))
        | Raised e =>
            retry_loop execute self step (max_retries - S count) (S count)
              (Some e)
        end)
    else
      ret (mkStepResult (step_number step) FAILED None count
             (Some (str_or last_error "Max retries exceeded"))).
Proof.
  destruct (count <? max_retries)%nat eqn:Hlt.
  - apply Nat.ltb_lt in Hlt.
    replace (max_retries - count)%nat with (S (max_retries - S count)) by lia.
    reflexivity.
  - apply Nat.ltb_ge in Hlt.
    replace (max_retries - count)%nat with 0%nat by lia. reflexivity.
Qed.

(** One iteration of the retry loop whose call fails: the error is
    recorded, the count grows, and the loop sleeps when attempts remain. *)
Lemma retry_loop_failing_call (self : BaseTool) (step : PlanStep)
    (remaining retry_count : nat) last_error (w : World) :
  failing_outcome (execute self (parameters step) (tool_calls w)) ->
  retry_loop execute self step (S remaining) retry_count last_error w
  = retry_loop execute self step remaining (S retry_count)
      (outcome_error (execute self (parameters step) (tool_calls w)))
      (mkWorld (registry w) (S (tool_calls w)) (llm_calls w)
         (log w ++ ToolCall (tool_type self) (parameters step)
            :: (if (S retry_count <? max_retries)%nat
                then [Sleep (S retry_count)] else []))).
Proof.
  intros Hfail. cbn [retry_loop]. unfold bind at 1.
  destruct (safe_execute_failing self (parameters step) w Hfail)
    as (r & -> & Hs & He).
  rewrite Hs, He. unfold bind at 1.
  destruct (S retry_count <? max_retries)%nat.
  - unfold emit. cbn [log registry tool_calls llm_calls].
    rewrite Nat.mul_1_l, <- app_assoc. reflexivity.
  - reflexivity.
Qed.

(** [_execute_step] on a registered tool is the retry loop, after the log
    line. *)
Lemma execute_step_registered (step : PlanStep) (self : BaseTool) (w : World) :
  registry w !! tool step = Some self ->
  _execute_step format_tool execute step w
  = retry_loop execute self step max_retries 0 None
      (mkWorld (registry w) (tool_calls w) (llm_calls w)
         (log w ++ [LogExecuting (step_number step)])).
Proof.
  intros Hreg. unfold _execute_step, ToolRegistry_get, bind, emit.
  cbn [registry]. rewrite Hreg. reflexivity.
Qed.

(** [_execute_step] on a tool the registry does not hold: one log line, no
    call. *)
Lemma execute_step_unregistered (step : PlanStep) (w : World) :
  registry w !! tool step = None ->
  _execute_step format_tool execute step w
  = (mkStepResult (step_number step) FAILED None 0
       (Some ("Tool not found: " +:+ format_tool (tool step))),
     mkWorld (registry w) (tool_calls w) (llm_calls w)
       (log w ++ [LogExecuting (step_number step)])).
Proof.
  intros Hreg. unfold _execute_step, ToolRegistry_get, bind, emit.
  cbn [registry]. rewrite Hreg. reflexivity.
Qed.

(** C2. A step whose tool is registered and whose every call fails: three
    calls are made, with a wait of 1 and then 2 seconds between them, and
    the step is FAILED with [retry_count] 3 and the error of the third call,
    or "Max retries exceeded" when that call left no error text. *)
Theorem execute_step_exhausts_retries (step : PlanStep) (self : BaseTool)
    (w : World) :
  registry w !! tool step = Some self ->
  (forall n, failing_outcome (execute self (parameters step) n)) ->
  let rw := _execute_step format_tool execute step w in
  let call := ToolCall (tool_type self) (parameters step) in
  let last := execute self (parameters step) (tool_calls w + 2) in
  max_retries = 3%nat
  /\ fst rw = mkStepResult (step_number step) FAILED None 3
               (Some (str_or (outcome_error last) "Max retries exceeded"))
  /\ log (snd rw)
     = log w ++ [LogExecuting (step_number step);
                 call; Sleep 1; call; Sleep 2; call]
  /\ tool_calls (snd rw) = (tool_calls w + 3)%nat.
Proof.
  intros Hreg Hfail. cbv zeta.
  rewrite (execute_step_registered step self w Hreg).
  unfold max_retries at 2 3 4.
  rewrite !retry_loop_failing_call by apply Hfail.
  cbn [retry_loop ret fst snd registry tool_calls llm_calls log].
  change (1 <? max_retries)%nat with true.
  change (2 <? max_retries)%nat with true.
  change (3 <? max_retries)%nat with false.
  replace (tool_calls w + 2)%nat with (S (S (tool_calls w))) by lia.
  repeat split.
  - rewrite <- !app_assoc. reflexivity.
  - lia.
Qed.

(** What the retry loop can return: a COMPLETED result, or a FAILED one
    without tool result whose count is the number of attempts made. *)
Lemma retry_loop_result (self : BaseTool) (step : PlanStep)
    (remaining count : nat) last_error (w w' : World) (r : StepResult) :
  retry_loop execute self step remaining count last_error w = (r, w') ->
  sr_step_number r = step_number step
  /\ (status r = COMPLETED
      \/ (status r = FAILED /\ tool_result r = None
          /\ retry_count r = (count + remaining)%nat)).
Proof.
  revert count last_error w.
  induction remaining as [|remaining IH]; intros count last_error w Hrun.
  - cbn in Hrun. inversion Hrun; subst. cbn.
    split; [reflexivity|]. right. repeat split. lia.
  - cbn [retry_loop] in Hrun. unfold bind at 1 in Hrun.
    destruct (safe_execute execute self (parameters step) w) as [[tr|e] w1].
    + destruct (tr_success tr).
      * inversion Hrun; subst. cbn. auto.
      * unfold bind at 1 in Hrun.
        destruct ((if (S count <? max_retries)%nat
                   then emit (Sleep (1 * S count)) else ret ()) w1)
          as [u w2].
        apply IH in Hrun.
        replace (count + S remaining)%nat
          with (S count + remaining)%nat by lia. exact Hrun.
    + apply IH in Hrun.
      replace (count + S remaining)%nat
        with (S count + remaining)%nat by lia. exact Hrun.
Qed.

(** Every result of [_execute_step] carries the step's number and is
    COMPLETED or FAILED. *)
Lemma execute_step_result (step : PlanStep) (w w' : World) (r : StepResult) :
  _execute_step format_tool execute step w = (r, w') ->
  sr_step_number r = step_number step
  /\ (status r = COMPLETED \/ status r = FAILED).
Proof.
  destruct (registry w !! tool step) as [self|] eqn:Hreg.
  - rewrite (execute_step_registered step self w Hreg). intros Hrun.
    destruct (retry_loop_result _ _ _ _ _ _ _ _ Hrun)
      as [Hn [Hc|(Hf & _)]]; auto.
  - rewrite (execute_step_unregistered step w Hreg).
    intros Hrun. inversion Hrun; subst. cbn. auto.
Qed.

(** ** The plan runner *)

(** The loop on a plan cut in two: the second part starts where the first
    one stops. *)
Lemma run_loop_app (a b : list PlanStep) rs cs (w : World) :
  run_loop format_tool execute (a ++ b) rs cs w
  = let '(acc, w') := run_loop format_tool execute a rs cs w in
    run_loop format_tool execute b (fst acc) (snd acc) w'.
Proof.
  revert rs cs w. induction a as [|step a IH]; intros rs cs w.
  - reflexivity.
  - cbn [app run_loop]. unfold bind.
    destruct ((if negb (_dependencies_met (depends_on step) cs)
               then ret (mkStepResult (step_number step) FAILED None 0
                           (Some "Dependencies not met"))
               else _execute_step format_tool execute step) w) as [r w1].
    apply IH.
Qed.

(** The loop appends one result per step, in order, each with the number
    of its step and each COMPLETED or FAILED. *)
Lemma run_loop_results (todo : list PlanStep) rs cs (w : World) :
  exists new,
    fst (fst (run_loop format_tool execute todo rs cs w)) = rs ++ new
    /\ Forall2 (fun s r => sr_step_number r = step_number s
                           /\ (status r = COMPLETED \/ status r = FAILED))
         todo new.
Proof.
  revert rs cs w. induction todo as [|step todo IH]; intros rs cs w.
  - exists []. cbn. rewrite app_nil_r. split; [reflexivity|constructor].
  - cbn [run_loop]. unfold bind at 1.
    destruct ((if negb (_dependencies_met (depends_on step) cs)
               then ret (mkStepResult (step_number step) FAILED None 0
                           (Some "Dependencies not met"))
               else _execute_step format_tool execute step) w)
      as [r w1] eqn:Hstep.
    destruct (IH (rs ++ [r]) (<[step_number step := r]> cs) w1)
      as (new & Hnew & Hall).
    exists (r :: new). split.
    + rewrite Hnew, <- app_assoc. reflexivity.
    + constructor; [|exact Hall].
      destruct (negb (_dependencies_met (depends_on step) cs)).
      * inversion Hstep; subst. cbn. auto.
      * exact (execute_step_result step w w1 r Hstep).
Qed.

(** In a list of results that are all COMPLETED or FAILED, the two counts
    add up to the length. *)
Lemma counts_add_up (rs : list (@StepResult ToolType Payload)) :
  Forall (fun r => status r = COMPLETED \/ status r = FAILED) rs ->
  (count_completed rs + count_failed rs)%nat = length rs.
Proof.
  unfold count_completed, count_failed.
  induction 1 as [|r rs Hr _ IH]; [reflexivity|].
  rewrite !filter_cons. destruct Hr as [Hr|Hr]; rewrite Hr.
  - rewrite decide_True by reflexivity. rewrite decide_False by discriminate.
    cbn. lia.
  - rewrite decide_False by discriminate. rewrite decide_True by reflexivity.
    cbn. lia.
Qed.

(** C6. After the plan runner has executed a plan there is one result per
    step, each COMPLETED or FAILED, so the two counts add up to the number
    of steps; [success] holds exactly when every step completed, and
    [partial_success] exactly when some step completed and [success] does
    not hold. *)
Theorem executor_run_resolves_every_step (plan : ExecutionPlan) (w : World) :
  let er := fst (ExecutorAgent_run format_tool execute plan w) in
  let rs := step_results er in
  length rs = length (steps plan)
  /\ Forall (fun r => status r = COMPLETED \/ status r = FAILED) rs
  /\ (count_completed rs + count_failed rs)%nat = length (steps plan)
  /\ (er_success er = true <-> count_completed rs = length (steps plan))
  /\ (partial_success er = true
      <-> (0 < count_completed rs)%nat /\ er_success er = false).
Proof.
  cbv zeta. unfold ExecutorAgent_run, bind.
  destruct (run_loop_results (steps plan) [] ∅ w) as (new & Hnew & Hall).
  destruct (run_loop format_tool execute (steps plan) [] ∅ w) as [acc w1].
  cbn [fst snd ret step_results er_success partial_success] in *.
  rewrite Hnew. cbn [app].
  assert (Hlen : length new = length (steps plan))
    by (symmetry; eapply Forall2_length; exact Hall).
  assert (Hcf : Forall (fun r => status r = COMPLETED \/ status r = FAILED) new).
  { clear -Hall. induction Hall as [|s r ss rs' [_ Hr] _ IH]; constructor; auto. }
  split; [exact Hlen|]. split; [exact Hcf|].
  split; [rewrite <- Hlen; apply counts_add_up; exact Hcf|].
  rewrite <- Hlen. split.
  - apply Nat.eqb_eq.
  - rewrite andb_true_iff, negb_true_iff, Nat.ltb_lt. reflexivity.
Qed.

(** [_dependencies_met] fails exactly when some dependency is missing
    from the mapping or recorded with another status than COMPLETED. *)
Lemma dependencies_met_false (deps : list Z)
    (completed : gmap Z (@StepResult ToolType Payload)) :
  _dependencies_met deps completed = false
  <-> Exists (fun dep => match completed !! dep with
                         | None => True
                         | Some r => status r <> COMPLETED
                         end) deps.
Proof.
  unfold _dependencies_met. induction deps as [|dep deps IH]; cbn.
  - split; [discriminate|]. intros Hex. inversion Hex.
  - rewrite andb_false_iff, IH, Exists_cons.
    destruct (completed !! dep) as [r|].
    + rewrite bool_decide_eq_false. reflexivity.
    + split; auto.
Qed.

(** C7. When the loop reaches a step one of whose dependencies is missing
    from the results recorded so far, or recorded with another status than
    COMPLETED, the step is FAILED with "Dependencies not met", without tool
    result and with no retry, and the world is left as it was: no tool is
    called, nothing is logged, nothing waits. *)
Theorem unmet_dependencies_fail_step (plan : ExecutionPlan)
    (pre post : list PlanStep) (step : PlanStep) (w : World) :
  steps plan = pre ++ step :: post ->
  let reached := run_loop format_tool execute pre [] ∅ w in
  let results_so_far := fst (fst reached) in
  let completed_steps := snd (fst reached) in
  Exists (fun dep => match completed_steps !! dep with
                     | None => True
                     | Some r => status r <> COMPLETED
                     end) (depends_on step) ->
  let failed := mkStepResult (step_number step) FAILED None 0
                  (Some "Dependencies not met") in
  step_results (fst (ExecutorAgent_run format_tool execute plan w))
    !! length pre = Some failed
  /\ run_loop format_tool execute [step] results_so_far completed_steps
       (snd reached)
     = ((results_so_far ++ [failed],
         <[step_number step := failed]> completed_steps), snd reached).
Proof.
  intros Hplan. cbv zeta. intros Hdeps.
  apply dependencies_met_false in Hdeps.
  unfold ExecutorAgent_run, bind. rewrite Hplan, run_loop_app.
  destruct (run_loop_results pre [] ∅ w) as (new & Hnew & Hall).
  destruct (run_loop format_tool execute pre [] ∅ w) as [[rs cs] w1].
  cbn [fst snd] in *. subst rs.
  assert (Hlen : length new = length pre)
    by (symmetry; eapply Forall2_length; exact Hall).
  split.
  - cbn [run_loop]. unfold bind at 1. rewrite Hdeps. cbn [negb ret].
    match goal with |- context [run_loop _ _ post ?rs ?cs ?w] =>
      destruct (run_loop_results post rs cs w) as (rest & Hrest & _);
      destruct (run_loop format_tool execute post rs cs w) as [acc w2]
    end.
    unfold ret. cbn [fst snd step_results app] in *. rewrite Hrest.
    rewrite <- app_assoc, lookup_app_r by lia.
    rewrite Hlen, Nat.sub_diag. reflexivity.
  - cbn [run_loop]. unfold bind at 1. rewrite Hdeps. reflexivity.
Qed.

(** C8. A plan of two steps, the second depending on the first, the first
    (which depends on nothing) naming a tool the registry does not hold: the
    first step is FAILED with "Tool not found", the second with
    "Dependencies not met", neither success nor partial success is reported,
    and nothing happened but the log line of the first step: no tool call,
    no retry. *)
Theorem unregistered_tool_fails_both_steps (plan : ExecutionPlan)
    (first second : PlanStep) (w : World) :
  steps plan = [first; second] ->
  depends_on first = [] ->
  step_number first ∈ depends_on second ->
  registry w !! tool first = None ->
  ExecutorAgent_run format_tool execute plan w
  = (mkExecutionResult plan
       [mkStepResult (step_number first) FAILED None 0
          (Some ("Tool not found: " +:+ format_tool (tool first)));
        mkStepResult (step_number second) FAILED None 0
          (Some "Dependencies not met")]
       false false,
     mkWorld (registry w) (tool_calls w) (llm_calls w)
       (log w ++ [LogExecuting (step_number first)])).
Proof.
  intros Hplan Hnodeps Hdep Hreg.
  unfold ExecutorAgent_run. unfold bind at 1. rewrite Hplan.
  cbn [run_loop]. unfold bind at 1. rewrite Hnodeps.
  cbn [_dependencies_met forallb negb].
  rewrite (execute_step_unregistered first w Hreg).
  unfold bind at 1.
  set (notfound := mkStepResult (step_number first) FAILED None 0
         (Some ("Tool not found: " +:+ format_tool (tool first)))).
  assert (Hunmet : _dependencies_met (depends_on second)
                     (<[step_number first := notfound]> ∅) = false).
  { apply dependencies_met_false, Exists_exists.
    exists (step_number first). split; [exact Hdep|].
    rewrite lookup_insert_eq. cbn. discriminate. }
  rewrite Hunmet. reflexivity.
Qed.

(** ** The registry *)

(** C10. The registry is one mapping held by the world, not by an
    orchestrator: whatever it held before, constructing an orchestrator
    leaves in it the GitHub tool and the Weather tool and nothing else, so a
    lookup succeeds for GITHUB and WEATHER only; and with that registry
    [_execute_step] answers "Tool not found" for the steps that name another
    tool, and for no other step. *)
Theorem registry_after_construction (w : World) :
  let w' := snd (AgentOrchestrator_init GITHUB WEATHER w) in
  registry w'
  = <[WEATHER := WeatherTool WEATHER]> (<[GITHUB := GitHubTool GITHUB]> ∅)
  /\ (forall t, is_Some (registry w' !! t) <-> t = GITHUB \/ t = WEATHER)
  /\ (forall (step : PlanStep) (w2 : World),
        registry w2 = registry w' ->
        let r := fst (_execute_step format_tool execute step w2) in
        (tool step <> GITHUB /\ tool step <> WEATHER
         -> r = mkStepResult (step_number step) FAILED None 0
                  (Some ("Tool not found: " +:+ format_tool (tool step))))
        /\ (status r = FAILED /\ retry_count r = 0%nat
            -> tool step <> GITHUB /\ tool step <> WEATHER)).
Proof.
  cbv zeta.
  assert (Hreg : registry (snd (AgentOrchestrator_init GITHUB WEATHER w))
                 = <[WEATHER := WeatherTool WEATHER]>
                     (<[GITHUB := GitHubTool GITHUB]> ∅)) by reflexivity.
  assert (Hlook : forall t,
            is_Some (registry (snd (AgentOrchestrator_init GITHUB WEATHER w)) !! t)
            <-> t = GITHUB \/ t = WEATHER).
  { intros t. rewrite Hreg. rewrite lookup_insert_is_Some, lookup_insert_is_Some.
    rewrite lookup_empty. split.
    - intros [->|[_ [->|[_ Hn]]]]; auto. destruct Hn as [x Hx]. discriminate.
    - intros [->| ->]; auto.
      destruct (decide (WEATHER = GITHUB)) as [->|Hne]; auto. }
  split; [exact Hreg|]. split; [exact Hlook|].
  intros step w2 Hw2. split.
  - intros [Hg Hw].
    assert (Hnone : registry w2 !! tool step = None).
    { rewrite Hw2. apply eq_None_not_Some. rewrite Hlook.
      intros [Heq|Heq]; [exact (Hg Heq)|exact (Hw Heq)]. }
    rewrite (execute_step_unregistered step w2 Hnone). reflexivity.
  - intros [Hf Hcount].
    destruct (registry w2 !! tool step) as [self|] eqn:Hsome.
    + exfalso. rewrite (execute_step_registered step self w2 Hsome) in Hf, Hcount.
      destruct (retry_loop execute self step max_retries 0 None _)
        as [r w3] eqn:Hrun.
      apply retry_loop_result in Hrun. cbn [fst] in Hf, Hcount.
      destruct Hrun as [_ [Hc|(_ & _ & Hn)]].
      * congruence.
      * rewrite Hn in Hcount. unfold max_retries in Hcount. discriminate.
    + rewrite Hw2 in Hsome. apply eq_None_not_Some in Hsome.
      rewrite Hlook in Hsome. split; intros Heq; apply Hsome; auto.
Qed.

(** ** The fallback verification *)

(** A quotient of lengths exceeds one half when twice the numerator
    exceeds the denominator. *)
Lemma half_lt_true_div (a b : nat) :
  (0 < b)%nat -> (one_half < true_div a b)%Qc <-> (b < 2 * a)%nat.
Proof.
  intros Hb. unfold one_half, true_div, Qclt. cbn [this Q2Qc].
  rewrite !Qred_correct. unfold Qlt. cbn [Qnum Qden].
  assert (Hpos : Z.pos (Pos.of_nat b) = Z.of_nat b).
  { destruct b as [|b]; [lia|].
    rewrite <- Pos.of_nat_succ, Zpos_P_of_succ_nat. lia. }
  rewrite Hpos. lia.
Qed.

(** C5. The fallback verification reads nothing but the step results: the
    score is the number of COMPLETED results over the number of results (0
    for no result), the run is valid when the score exceeds one half, that
    is when more than half of the results are COMPLETED, there is one issue
    line per FAILED result in the order of the results, no suggestion, and
    two run results with the same step results are verified alike; three
    COMPLETED results out of four score 3/4 and are valid. *)
Theorem fallback_verification_spec (task : string)
    (er : @ExecutionResult ToolType Payload) :
  let v := _create_fallback_verification task er in
  let rs := step_results er in
  completeness_score v
  = (if decide (length rs = 0%nat) then 0%Qc
     else true_div (count_completed rs) (length rs))
  /\ (is_valid v = true <-> (one_half < completeness_score v)%Qc)
  /\ (is_valid v = true <-> (length rs < 2 * count_completed rs)%nat)
  /\ issues v
     = map (fun r => "Step " +:+ pretty (sr_step_number r) +:+ " failed: "
                       +:+ fmt_opt_str (error_message r))
         (filter (fun r => status r = FAILED) rs)
  /\ length (issues v) = count_failed rs
  /\ suggestions v = []
  /\ (forall task' er', step_results er' = rs ->
        _create_fallback_verification task' er' = v)
  /\ (length rs = 4%nat -> count_completed rs = 3%nat ->
        completeness_score v = Q2Qc (3 # 4) /\ is_valid v = true).
Proof.
  cbv zeta. unfold _create_fallback_verification.
  cbn [completeness_score is_valid issues suggestions].
  fold (count_completed (step_results er)).
  assert (Hvalid : forall q : Qc, bool_decide (one_half < q)%Qc = true
                                  <-> (one_half < q)%Qc)
    by (intros q; apply bool_decide_eq_true).
  split; [|split; [|split; [|split; [|split; [|split; [|split]]]]]].
  - destruct (length (step_results er)) as [|n]; reflexivity.
  - apply Hvalid.
  - rewrite Hvalid.
    destruct (step_results er) as [|r rs].
    + cbn. split; [intros Hlt; inversion Hlt|lia].
    + cbn [length Nat.ltb Nat.leb]. apply half_lt_true_div. lia.
  - reflexivity.
  - rewrite length_map. reflexivity.
  - reflexivity.
  - intros task' er' Hsame. rewrite Hsame. reflexivity.
  - intros Hlen Hcount. rewrite Hlen, Hcount. split; [reflexivity|].
    apply Hvalid. apply half_lt_true_div; lia.
Qed.

(** ** The fallback planner *)

(** C9. Every plan the fallback planner returns has steps without
    dependencies; and for a task whose lowered text holds no repository
    keyword and no weather keyword, the planner returns the plan of one
    repository-search step, numbered 1, whose query is the first 50
    characters of the task. *)
Theorem fallback_plan_spec (task : string) :
  (forall plan : @ExecutionPlan ToolType,
     _create_fallback_plan GITHUB WEATHER task = Ok plan ->
     Forall (fun s => depends_on s = []) (steps plan))
  /\ (any_in github_keywords (lower task) = false ->
      any_in weather_keywords (lower task) = false ->
      _create_fallback_plan GITHUB WEATHER task
      = Ok (mkExecutionPlan (str_take 200 task)
              [mkPlanStep 1 "Search GitHub for relevant repositories" GITHUB
                 (<["query" := VStr (str_take 50 task)]>
                    (<["limit" := VInt 5]> ∅)) []]
              "Fallback plan generated from keyword extraction")).
Proof.
  unfold _create_fallback_plan. split.
  - intros plan.
    destruct (any_in github_keywords (lower task));
      destruct (any_in weather_keywords (lower task));
      try destruct (_extract_city task) as [city|e];
      cbn [app]; intros Hplan; inversion Hplan; subst; cbn [steps];
      repeat constructor.
  - intros -> ->. reflexivity.
Qed.

(** ** The recovery gate *)

Lemma phase4_count_snoc (l : list (@Event ToolType)) (e : Event) :
  phase4_count (l ++ [e])
  = (phase4_count l + match e with LogPhase4 => 1 | _ => 0 end)%nat.
Proof.
  unfold phase4_count. rewrite List.filter_app, length_app.
  destruct e; reflexivity.
Qed.

Lemma keeps_ret {A : Type} (a : A) : keeps_phase4 (@ret ToolType _ _ A a).
Proof. intros w. reflexivity. Qed.

Lemma keeps_bind {A B : Type} (m : @Exec ToolType _ _ A) (k : A -> Exec B) :
  keeps_phase4 m -> (forall a, keeps_phase4 (k a)) -> keeps_phase4 (bind m k).
Proof.
  intros Hm Hk w. unfold bind. specialize (Hm w).
  destruct (m w) as [a w1]. rewrite (Hk a w1). exact Hm.
Qed.

Lemma keeps_emit (e : @Event ToolType) :
  e <> LogPhase4 -> keeps_phase4 (emit e).
Proof.
  intros He w. unfold emit. cbn [snd log]. rewrite phase4_count_snoc.
  destruct e; try lia. contradiction.
Qed.

Lemma keeps_safe_execute (self : BaseTool) kwargs :
  keeps_phase4 (safe_execute execute self kwargs).
Proof.
  unfold safe_execute. apply keeps_bind; [apply keeps_emit; discriminate|].
  intros _. apply keeps_bind; [intros w; reflexivity|].
  intros n. destruct (execute self kwargs n); apply keeps_ret.
Qed.

Lemma keeps_retry_loop (self : BaseTool) (step : PlanStep)
    (remaining count : nat) last_error :
  keeps_phase4 (retry_loop execute self step remaining count last_error).
Proof.
  revert count last_error.
  induction remaining as [|remaining IH]; intros count last_error.
  - apply keeps_ret.
  - cbn [retry_loop]. apply keeps_bind; [apply keeps_safe_execute|].
    intros [tr|e]; [|apply IH].
    destruct (tr_success tr); [apply keeps_ret|].
    apply keeps_bind; [|intros _; apply IH].
    destruct (S count <? max_retries)%nat;
      [apply keeps_emit; discriminate|apply keeps_ret].
Qed.

Lemma keeps_execute_step (step : PlanStep) :
  keeps_phase4 (_execute_step format_tool execute step).
Proof.
  unfold _execute_step. apply keeps_bind; [apply keeps_emit; discriminate|].
  intros _. apply keeps_bind; [intros w; reflexivity|].
  intros [self|]; [apply keeps_retry_loop|apply keeps_ret].
Qed.

Lemma keeps_run_loop (todo : list PlanStep) rs cs :
  keeps_phase4 (run_loop format_tool execute todo rs cs).
Proof.
  revert rs cs. induction todo as [|step todo IH]; intros rs cs.
  - apply keeps_ret.
  - cbn [run_loop]. apply keeps_bind; [|intros r; apply IH].
    destruct (negb _); [apply keeps_ret|apply keeps_execute_step].
Qed.

Lemma keeps_executor_run (plan : ExecutionPlan) :
  keeps_phase4 (ExecutorAgent_run format_tool execute plan).
Proof.
  unfold ExecutorAgent_run. apply keeps_bind; [apply keeps_run_loop|].
  intros acc. apply keeps_ret.
Qed.

Lemma keeps_verifier_run (task : string) (er : ExecutionResult) :
  keeps_phase4 (VerifierAgent_run llm_verify task er).
Proof.
  unfold VerifierAgent_run. apply keeps_bind; [apply keeps_emit; discriminate|].
  intros _. apply keeps_bind; [intros w; reflexivity|].
  intros n. destruct (llm_verify task er n); apply keeps_ret.
Qed.

Lemma keeps_planner_run (task : string) :
  keeps_phase4 (PlannerAgent_run GITHUB WEATHER llm_plan task).
Proof.
  unfold PlannerAgent_run. apply keeps_bind; [intros w; reflexivity|].
  intros n. destruct (llm_plan task n); apply keeps_ret.
Qed.

Lemma keeps_retry_each (failed : list (PlanStep * StepResult)) rs :
  keeps_phase4 (retry_each format_tool execute failed rs).
Proof.
  revert rs. induction failed as [|[step old] failed IH]; intros rs.
  - apply keeps_ret.
  - cbn [retry_each]. apply keeps_bind; [apply keeps_execute_step|].
    intros r. apply IH.
Qed.

Lemma keeps_retry_failed_steps (task : string) (plan : ExecutionPlan)
    (er : ExecutionResult) (v : VerificationResult) :
  keeps_phase4 (_retry_failed_steps format_tool execute llm_verify task plan er v).
Proof.
  unfold _retry_failed_steps.
  destruct (List.filter _ _); [apply keeps_ret|].
  apply keeps_bind; [apply keeps_retry_each|].
  intros rs. apply keeps_bind; [apply keeps_verifier_run|].
  intros v'. apply keeps_ret.
Qed.

(** The shape of what the plan runner returns. *)
Lemma executor_run_shape (plan : ExecutionPlan) (w : World) :
  exists rs w',
    ExecutorAgent_run format_tool execute plan w
    = (mkExecutionResult plan rs
         (count_completed rs =? length rs)%nat
         ((0 <? count_completed rs)%nat
          && negb (count_completed rs =? length rs)%nat), w')
    /\ Forall2 (fun s r => sr_step_number r = step_number s
                           /\ (status r = COMPLETED \/ status r = FAILED))
         (steps plan) rs.
Proof.
  unfold ExecutorAgent_run, bind.
  destruct (run_loop_results (steps plan) [] ∅ w) as (new & Hnew & Hall).
  destruct (run_loop format_tool execute (steps plan) [] ∅ w) as [acc w1].
  cbn [fst app] in *. rewrite Hnew. exists new, w1. split; [reflexivity|exact Hall].
Qed.

(** When some result is not COMPLETED, the recovery pass finds a failed
    step to run again. *)
Lemma failed_steps_found (ss : list (@PlanStep ToolType))
    (rs : list (@StepResult ToolType Payload)) :
  Forall2 (fun s r => sr_step_number r = step_number s
                      /\ (status r = COMPLETED \/ status r = FAILED)) ss rs ->
  count_completed rs <> length rs ->
  List.filter (fun sr => bool_decide (status (snd sr) = FAILED)) (zip ss rs)
  <> [].
Proof.
  unfold count_completed.
  induction 1 as [|s r ss rs [_ Hr] _ IH]; intros Hcount.
  - contradiction.
  - cbn [zip zip_with List.filter snd]. destruct Hr as [Hr|Hr]; rewrite Hr.
    + rewrite bool_decide_eq_false_2 by discriminate. apply IH.
      rewrite filter_cons, decide_True in Hcount by exact Hr.
      cbn [length] in Hcount. lia.
    + rewrite bool_decide_eq_true_2 by reflexivity. discriminate.
Qed.

(** C4. In one run of the pipeline whose planning returns a plan, the
    recovery phase is entered exactly when the plan runner reports no
    success and the first verification scores below 1 (so never after a
    successful execution); when it is entered, [success] and
    [partial_success] are computed again from the updated step list and the
    verification of the response is a second run of the verifier on the
    updated result; otherwise the response carries the first execution
    result and the first verification; in both cases the success of the
    response is [is_valid] and [success] together. *)
Theorem recovery_gate (task : string) (plan : ExecutionPlan) (w w1 : World) :
  PlannerAgent_run GITHUB WEATHER llm_plan task (snd (emit LogPlanning w))
  = (Ok plan, w1) ->
  let ran := ExecutorAgent_run format_tool execute plan w1 in
  let er := fst ran in
  let verified := VerifierAgent_run llm_verify task er (snd ran) in
  let v := fst verified in
  let entered := er_success er = false /\ (completeness_score v < 1)%Qc in
  exists resp w',
    AgentOrchestrator_run GITHUB WEATHER format_tool execute llm_plan
      llm_verify task w = (Ok resp, w')
    /\ ar_success resp
       = is_valid (verification resp) && er_success (execution resp)
    /\ (entered -> phase4_count (log w') = S (phase4_count (log w)))
    /\ (~ entered -> phase4_count (log w') = phase4_count (log w))
    /\ (er_success er = true -> ~ entered)
    /\ (~ entered ->
          execution resp = er /\ verification resp = v /\ w' = snd verified)
    /\ (entered ->
          let rs := step_results (execution resp) in
          er_success (execution resp) = (count_completed rs =? length rs)%nat
          /\ partial_success (execution resp)
             = ((0 <? count_completed rs)%nat
                && negb (er_success (execution resp)))
          /\ exists w4,
               VerifierAgent_run llm_verify task (execution resp) w4
               = (verification resp, w')).
Proof.
  intros Hplan. cbv zeta.
  destruct (executor_run_shape plan w1) as (rs & w2 & Hrun & Hall).
  pose proof (keeps_executor_run plan w1) as Hk2.
  rewrite Hrun in Hk2 |- *. cbn [fst snd] in Hk2 |- *.
  set (er := mkExecutionResult plan rs _ _) in *.
  destruct (VerifierAgent_run llm_verify task er w2) as [v w3] eqn:Hver.
  pose proof (keeps_verifier_run task er w2) as Hk3. rewrite Hver in Hk3.
  pose proof (keeps_planner_run task (snd (emit LogPlanning w))) as Hk1.
  rewrite Hplan in Hk1.
  pose proof (keeps_emit LogPlanning ltac:(discriminate) w) as Hk0.
  cbn [fst snd] in *.
  assert (Hbase : phase4_count (log w3) = phase4_count (log w)) by congruence.
  clear Hk0 Hk1 Hk2 Hk3.
  unfold AgentOrchestrator_run, _execute_with_callbacks, bind.
  change (emit LogPlanning w) with (tt, snd (emit LogPlanning w)).
  cbv beta iota. rewrite Hplan. cbv beta iota. rewrite Hrun. cbv beta iota.
  rewrite Hver. cbv beta iota.
  destruct (negb (er_success er) && bool_decide (completeness_score v < 1)%Qc)
    eqn:Hcond.
  - apply andb_true_iff in Hcond. destruct Hcond as [Hns Hlt].
    apply negb_true_iff in Hns. apply bool_decide_eq_true in Hlt.
    change (emit LogPhase4 w3) with (tt, snd (emit LogPhase4 w3)).
    cbv beta iota.
    pose proof (keeps_retry_failed_steps task plan er v
                  (snd (emit LogPhase4 w3))) as Hk4.
    destruct (_retry_failed_steps format_tool execute llm_verify task plan
                er v (snd (emit LogPhase4 w3))) as [[er' v'] w'] eqn:Hretry.
    cbn [fst snd] in *. unfold ret.
    eexists _, w'. split; [reflexivity|].
    cbn [ar_success verification execution].
    split; [reflexivity|].
    split.
    { intros _. rewrite Hk4. unfold emit. cbn [snd log].
      rewrite phase4_count_snoc. lia. }
    split; [intros Hn; exfalso; apply Hn; auto|].
    split; [intros Hs; congruence|].
    split; [intros Hn; exfalso; apply Hn; auto|].
    intros _.
    unfold _retry_failed_steps in Hretry.
    destruct (List.filter _ (zip (steps plan) (step_results er)))
      as [|p failed] eqn:Hfailed.
    { exfalso. revert Hfailed. apply failed_steps_found; [exact Hall|].
      subst er. cbn [er_success] in Hns. apply Nat.eqb_neq. exact Hns. }
    unfold bind in Hretry.
    destruct (retry_each format_tool execute (p :: failed) (step_results er)
                (snd (emit LogPhase4 w3))) as [rs' w4].
    destruct (VerifierAgent_run llm_verify task _ w4) as [v2 w5] eqn:Hver2.
    unfold ret in Hretry. inversion Hretry; subst er' v' w'.
    cbn [step_results er_success partial_success].
    split; [reflexivity|]. split; [reflexivity|].
    exists w4. exact Hver2.
  - assert (Hnot : ~ (er_success er = false /\ (completeness_score v < 1)%Qc)).
    { intros [Hns Hlt]. rewrite Hns in Hcond. cbn in Hcond.
      apply bool_decide_eq_false in Hcond. contradiction. }
    unfold ret. cbn [fst snd]. eexists _, w3. split; [reflexivity|].
    cbn [ar_success verification execution].
    split; [reflexivity|].
    split; [intros He; contradiction|].
    split; [intros _; exact Hbase|].
    split; [intros _; exact Hnot|].
    split; [intros _; auto|].
    intros He; contradiction.
Qed.

(** ** The outer retry *)

Lemma attempts_of_length (task : string) (max_attempts : Z) (idx : list Z)
    (w : World) :
  length (attempts_of GITHUB WEATHER format_tool execute llm_plan llm_verify
            task max_attempts idx w) = length idx.
Proof.
  revert w. induction idx as [|a idx IH]; intros w; cbn; [|rewrite IH]; reflexivity.
Qed.

(** One turn of the loop of [run_with_retry], on the outcome of the
    attempt. *)
Lemma retry_attempts_cons (task : string) (max_attempts a : Z) (idx : list Z)
    best (w : World) :
  retry_attempts GITHUB WEATHER format_tool execute llm_plan llm_verify
    task max_attempts (a :: idx) best w
  = let rw := AgentOrchestrator_run GITHUB WEATHER format_tool execute
                llm_plan llm_verify task
                (snd (emit (LogAttempt (a + 1) max_attempts) w)) in
    match fst rw with
    | Raised e => (Raised e, snd rw)
    | Ok response =>
        if ar_success response then (Ok (Some response), snd rw)
        else retry_attempts GITHUB WEATHER format_tool execute llm_plan
               llm_verify task max_attempts idx (keep_best best response)
               (snd rw)
    end.
Proof.
  cbn [retry_attempts]. unfold bind. cbv zeta.
  change (emit (LogAttempt (a + 1) max_attempts) w)
    with (tt, snd (emit (LogAttempt (a + 1) max_attempts) w)).
  cbv beta iota. cbn [snd].
  generalize (AgentOrchestrator_run GITHUB WEATHER format_tool execute
                llm_plan llm_verify task
                (snd (emit (LogAttempt (a + 1) max_attempts) w))).
  intros [[response|e] w1]; [|reflexivity].
  cbn [fst snd]. destruct (ar_success response); reflexivity.
Qed.

(** The loop stops at the first attempt that succeeds. *)
Lemma retry_attempts_short_circuit (task : string) (max_attempts : Z)
    (idx : list Z) best (w : World) (rs : list AgentResponse)
    (resp : AgentResponse) (wk : World) :
  let tries := attempts_of GITHUB WEATHER format_tool execute llm_plan
                 llm_verify task max_attempts idx w in
  tries !! length rs = Some (Ok resp, wk) ->
  map fst (take (length rs) tries) = map Ok rs ->
  Forall (fun r => ar_success r = false) rs ->
  ar_success resp = true ->
  retry_attempts GITHUB WEATHER format_tool execute llm_plan llm_verify
    task max_attempts idx best w = (Ok (Some resp), wk).
Proof.
  cbv zeta. revert best w rs.
  induction idx as [|a idx IH]; intros best w rs Hk Hpre Hfail Hok.
  - cbn in Hk. rewrite lookup_nil in Hk. discriminate.
  - rewrite retry_attempts_cons. cbv zeta. cbn [attempts_of] in Hk, Hpre.
    set (rw := AgentOrchestrator_run GITHUB WEATHER format_tool execute
                 llm_plan llm_verify task
                 (snd (emit (LogAttempt (a + 1) max_attempts) w))) in *.
    destruct rs as [|r rs].
    + assert (Hrw : rw = (Ok resp, wk)) by (apply (inj Some); exact Hk).
      rewrite Hrw. cbn [fst snd]. rewrite Hok. reflexivity.
    + cbn [length take map] in Hpre.
      assert (Hr : fst rw = Ok r) by (apply (f_equal head) in Hpre;
        apply (inj Some); exact Hpre).
      assert (Hrest : map fst (take (length rs)
                (attempts_of GITHUB WEATHER format_tool execute llm_plan
                   llm_verify task max_attempts idx (snd rw))) = map Ok rs)
        by (apply (f_equal tail) in Hpre; exact Hpre).
      rewrite Hr. inversion Hfail as [|? ? Hf Hfail']; subst. rewrite Hf.
      apply (IH _ _ rs); assumption.
Qed.

(** When no attempt succeeds the loop folds [keep_best] over the
    responses and stops in the world the last attempt leaves. *)
Lemma retry_attempts_exhaust (task : string) (max_attempts : Z)
    (idx : list Z) best (w : World) (rs : list AgentResponse) :
  let tries := attempts_of GITHUB WEATHER format_tool execute llm_plan
                 llm_verify task max_attempts idx w in
  map fst tries = map Ok rs ->
  Forall (fun r => ar_success r = false) rs ->
  retry_attempts GITHUB WEATHER format_tool execute llm_plan llm_verify
    task max_attempts idx best w
  = (Ok (fold_left keep_best rs best), default w (last (map snd tries))).
Proof.
  cbv zeta. revert best w rs.
  induction idx as [|a idx IH]; intros best w rs Hall Hfail.
  - destruct rs; [reflexivity|discriminate].
  - rewrite retry_attempts_cons. cbv zeta. cbn [attempts_of map] in Hall |- *.
    set (rw := AgentOrchestrator_run GITHUB WEATHER format_tool execute
                 llm_plan llm_verify task
                 (snd (emit (LogAttempt (a + 1) max_attempts) w))) in *.
    destruct rs as [|r rs]; [discriminate|]. cbn [map] in Hall.
    assert (Hr : fst rw = Ok r) by (apply (f_equal head) in Hall;
      apply (inj Some); exact Hall).
    assert (Hrest : map fst (attempts_of GITHUB WEATHER format_tool execute
                llm_plan llm_verify task max_attempts idx (snd rw)) = map Ok rs)
      by (apply (f_equal tail) in Hall; exact Hall).
    rewrite Hr. inversion Hfail as [|? ? Hf Hfail']; subst. rewrite Hf.
    rewrite (IH _ _ rs Hrest Hfail'). cbn [fold_left]. f_equal.
    rewrite last_cons. destruct (last _); reflexivity.
Qed.

(** What [keep_best] retains over a list of responses: a response whose
    score no other exceeds, the earliest of them. *)
Lemma keep_best_fold (rs : list (@AgentResponse ToolType Payload)) best :
  match fold_left keep_best rs best with
  | None => best = None /\ rs = []
  | Some b =>
      (forall r, r ∈ rs ->
         (completeness_score (verification r)
          <= completeness_score (verification b))%Qc)
      /\ match best with
         | Some b0 =>
             (completeness_score (verification b0)
              <= completeness_score (verification b))%Qc
             /\ (b = b0
                 \/ exists k, rs !! k = Some b
                      /\ (completeness_score (verification b0)
                          < completeness_score (verification b))%Qc
                      /\ forall j r, (j < k)%nat -> rs !! j = Some r ->
                           (completeness_score (verification r)
                            < completeness_score (verification b))%Qc)
         | None =>
             exists k, rs !! k = Some b
               /\ forall j r, (j < k)%nat -> rs !! j = Some r ->
                    (completeness_score (verification r)
                     < completeness_score (verification b))%Qc
         end
  end.
Proof.
  revert best. induction rs as [|r rs IH]; intros best.
  - cbn. destruct best as [b0|]; [|auto].
    split; [intros r Hr; inversion Hr|].
    split; [apply Qcle_refl|auto].
  - cbn [fold_left]. specialize (IH (keep_best best r)).
    destruct (fold_left keep_best rs (keep_best best r)) as [b|].
    2:{ destruct IH as [Hnone _]. destruct best as [b0|]; cbn in Hnone;
        [destruct (bool_decide _)|]; discriminate. }
    destruct IH as [Hmax Hbest].
    assert (Hshift : forall (P : AgentResponse -> Prop) k,
              P r -> (forall j x, (j < k)%nat -> rs !! j = Some x -> P x) ->
              forall j x, (j < S k)%nat -> (r :: rs) !! j = Some x -> P x).
    { intros P k Hr Hrs [|j] x Hj Hx; cbn in Hx.
      - inversion Hx; subst; exact Hr.
      - apply (Hrs j); [lia|exact Hx]. }
    destruct best as [b0|]; cbn [keep_best] in Hbest.
    + destruct (bool_decide (completeness_score (verification b0)
                             < completeness_score (verification r))%Qc)
        eqn:Hlt.
      * apply bool_decide_eq_true in Hlt.
        destruct Hbest as [Hrb Hwhere]. split.
        { intros x Hx. apply elem_of_cons in Hx. destruct Hx as [->|Hx]; auto. }
        split; [apply Qclt_le_weak; eapply Qclt_le_trans; eassumption|].
        right. destruct Hwhere as [->|(k & Hk & Hrlt & Hearlier)].
        { exists 0%nat. split; [reflexivity|]. split; [exact Hlt|].
          intros j x Hj; lia. }
        exists (S k). split; [exact Hk|].
        split; [eapply Qclt_trans; eassumption|].
        apply Hshift; assumption.
      * apply bool_decide_eq_false in Hlt. apply Qcnot_lt_le in Hlt.
        destruct Hbest as [Hb0 Hwhere]. split.
        { intros x Hx. apply elem_of_cons in Hx. destruct Hx as [->|Hx]; auto.
          eapply Qcle_trans; eassumption. }
        split; [exact Hb0|].
        destruct Hwhere as [->|(k & Hk & Hblt & Hearlier)]; [auto|].
        right. exists (S k). split; [exact Hk|]. split; [exact Hblt|].
        apply Hshift; [eapply Qcle_lt_trans; eassumption|assumption].
    + destruct Hbest as [Hrb Hwhere]. split.
      { intros x Hx. apply elem_of_cons in Hx. destruct Hx as [->|Hx]; auto. }
      destruct Hwhere as [->|(k & Hk & Hrlt & Hearlier)].
      { exists 0%nat. split; [reflexivity|]. intros j x Hj; lia. }
      exists (S k). split; [exact Hk|]. apply Hshift; assumption.
Qed.

(** C3. [run_with_retry] makes its attempts one after the other.  It
    returns the first response that succeeds, in the world that attempt
    leaves, so without another attempt.  When the attempts of the range all
    return without success it returns, after the last of them, a response
    whose score none of the others exceeds: the earliest such one.  For a
    range without attempt it returns nothing. *)
Theorem run_with_retry_spec (task : string) (max_attempts : Z) (w : World) :
  let tries := attempts_of GITHUB WEATHER format_tool execute llm_plan
                 llm_verify task max_attempts (seqZ 0 max_attempts) w in
  let result := run_with_retry GITHUB WEATHER format_tool execute llm_plan
                  llm_verify task max_attempts w in
  length tries = Z.to_nat max_attempts
  /\ (forall rs resp wk,
        tries !! length rs = Some (Ok resp, wk) ->
        map fst (take (length rs) tries) = map Ok rs ->
        Forall (fun r => ar_success r = false) rs ->
        ar_success resp = true ->
        result = (Ok (Some resp), wk))
  /\ (forall rs,
        map fst tries = map Ok rs ->
        Forall (fun r => ar_success r = false) rs ->
        rs <> [] ->
        exists k best wlast,
          rs !! k = Some best
          /\ last (map snd tries) = Some wlast
          /\ result = (Ok (Some best), wlast)
          /\ (forall r, r ∈ rs ->
                (completeness_score (verification r)
                 <= completeness_score (verification best))%Qc)
          /\ (forall j r, (j < k)%nat -> rs !! j = Some r ->
                (completeness_score (verification r)
                 < completeness_score (verification best))%Qc))
  /\ (max_attempts <= 0 -> result = (Ok None, w)).
Proof.
  cbv zeta. unfold run_with_retry.
  split; [rewrite attempts_of_length; apply length_seqZ|].
  split; [intros rs resp wk; apply retry_attempts_short_circuit|].
  split.
  - intros rs Hall Hfail Hne.
    rewrite (retry_attempts_exhaust _ _ _ _ _ rs Hall Hfail).
    pose proof (keep_best_fold rs None) as Hfold.
    destruct (fold_left keep_best rs None) as [b|];
      [|destruct Hfold as [_ Hnil]; contradiction].
    destruct Hfold as (Hmax & k & Hk & Hearlier).
    destruct (last (map snd (attempts_of _ _ _ _ _ _ _ _ _ w))) as [wl|] eqn:Hlast.
    + exists k, b, wl. auto.
    + exfalso. apply last_None in Hlast. apply (f_equal length) in Hlast, Hall.
      rewrite !length_map in Hlast, Hall. cbn in Hlast.
      destruct rs; [contradiction|]. cbn in Hall. lia.
  - intros Hle. replace (seqZ 0 max_attempts) with (@nil Z); [reflexivity|].
    unfold seqZ. replace (Z.to_nat max_attempts) with 0%nat by lia. reflexivity.
Qed.

(** ** The recovery pass *)

(** [_execute_step] never reads the dependencies of its step. *)
Lemma retry_loop_ignores_dependencies (self : BaseTool) (step : PlanStep)
    (deps : list Z) (remaining count : nat) last_error (w : World) :
  retry_loop execute self (with_depends_on step deps) remaining count
    last_error w
  = retry_loop execute self step remaining count last_error w.
Proof.
  revert count last_error w.
  induction remaining as [|remaining IH]; intros count last_error w.
  - reflexivity.
  - cbn [retry_loop with_depends_on parameters step_number]. unfold bind.
    destruct (safe_execute execute self (parameters step) w) as [[tr|e] w1];
      [|apply IH].
    destruct (tr_success tr); [reflexivity|].
    destruct ((if (S count <? max_retries)%nat
               then emit (Sleep (1 * S count)) else ret ()) w1) as [u w2].
    apply IH.
Qed.

Lemma execute_step_ignores_dependencies (step : PlanStep) (deps : list Z)
    (w : World) :
  _execute_step format_tool execute (with_depends_on step deps) w
  = _execute_step format_tool execute step w.
Proof.
  unfold _execute_step, bind, emit, ToolRegistry_get.
  cbn [with_depends_on step_number tool].
  destruct (registry _ !! tool step) as [self|]; [|reflexivity].
  apply retry_loop_ignores_dependencies.
Qed.

(** Overwriting the first entry with a number, past a prefix that does
    not hold the number. *)
Lemma replace_first_app (n : Z) (new r : @StepResult ToolType Payload)
    (prefix rest : list StepResult) :
  Forall (fun x => sr_step_number x <> n) prefix ->
  sr_step_number r = n ->
  replace_first n new (prefix ++ r :: rest) = prefix ++ new :: rest.
Proof.
  intros Hprefix Hr. induction Hprefix as [|x prefix Hx _ IH]; cbn.
  - rewrite decide_True by exact Hr. reflexivity.
  - rewrite decide_False by exact Hx. rewrite IH. reflexivity.
Qed.

(** With step numbers that differ, the loop of the recovery pass is the
    replacement by position. *)
Lemma retry_each_in_place (ss : list PlanStep) (rs : list StepResult) :
  Forall2 (fun s r => sr_step_number r = step_number s) ss rs ->
  forall (prefix : list StepResult) (w : World),
    NoDup (map step_number ss) ->
    Forall (fun x => sr_step_number x ∉ map step_number ss) prefix ->
    retry_each format_tool execute
      (List.filter (fun sr => bool_decide (status (snd sr) = FAILED))
         (zip ss rs))
      (prefix ++ rs) w
    = let (rs', w') := recover_in_place format_tool execute (zip ss rs) w in
      (prefix ++ rs', w').
Proof.
  induction 1 as [|s r ss rs Hsr _ IH]; intros prefix w Hnodup Hprefix.
  - reflexivity.
  - cbn [map] in Hnodup, Hprefix. apply NoDup_cons in Hnodup.
    destruct Hnodup as [Hfresh Hnodup].
    assert (Hprefix' : Forall (fun x => sr_step_number x ∉ map step_number ss)
                         prefix).
    { eapply Forall_impl; [exact Hprefix|]. intros x Hx Hin. apply Hx.
      apply elem_of_cons. auto. }
    cbn [zip zip_with List.filter snd recover_in_place].
    destruct (decide (status r = FAILED)) as [Hf|Hf].
    + rewrite bool_decide_eq_true_2 by exact Hf.
      cbn [retry_each]. unfold bind.
      destruct (_execute_step format_tool execute s w) as [new w1] eqn:Hex.
      apply execute_step_result in Hex. destruct Hex as [Hnew _].
      rewrite replace_first_app; [| |exact Hsr].
      2:{ eapply Forall_impl; [exact Hprefix|]. intros x Hx Heq. apply Hx.
          rewrite Heq. apply elem_of_cons. auto. }
      replace (prefix ++ new :: rs) with ((prefix ++ [new]) ++ rs)
        by (rewrite <- app_assoc; reflexivity).
      rewrite IH; [|exact Hnodup|].
      2:{ apply Forall_app. split; [exact Hprefix'|].
          constructor; [|constructor]. rewrite Hnew. exact Hfresh. }
      destruct (recover_in_place format_tool execute (zip ss rs) w1)
        as [rs' w']. unfold ret. rewrite <- app_assoc. reflexivity.
    + rewrite bool_decide_eq_false_2 by exact Hf. unfold bind, ret.
      replace (prefix ++ r :: rs) with ((prefix ++ [r]) ++ rs)
        by (rewrite <- app_assoc; reflexivity).
      rewrite IH; [|exact Hnodup|].
      2:{ apply Forall_app. split; [exact Hprefix'|].
          constructor; [|constructor]. rewrite Hsr. exact Hfresh. }
      destruct (recover_in_place format_tool execute (zip ss rs) w)
        as [rs' w']. rewrite <- app_assoc. reflexivity.
Qed.

(** Nothing is run again when no entry is FAILED. *)
Lemma recover_in_place_nothing_failed (pairs : list (PlanStep * StepResult))
    (w : World) :
  List.filter (fun sr => bool_decide (status (snd sr) = FAILED)) pairs = [] ->
  recover_in_place format_tool execute pairs w = (map snd pairs, w).
Proof.
  induction pairs as [|[s r] pairs IH]; intros Hnone; [reflexivity|].
  cbn [List.filter snd] in Hnone. cbn [recover_in_place map snd].
  destruct (decide (status r = FAILED)) as [Hf|Hf].
  - rewrite bool_decide_eq_true_2 in Hnone by exact Hf. discriminate.
  - rewrite bool_decide_eq_false_2 in Hnone by exact Hf.
    unfold bind, ret. rewrite (IH Hnone). reflexivity.
Qed.

Lemma zip_snd_aligned (ss : list (@PlanStep ToolType))
    (rs : list (@StepResult ToolType Payload)) :
  Forall2 (fun s r => sr_step_number r = step_number s) ss rs ->
  map snd (zip ss rs) = rs.
Proof.
  induction 1 as [|s r ss rs _ _ IH]; [reflexivity|].
  cbn [zip zip_with map snd]. f_equal. exact IH.
Qed.

(** C1, as the code has it.  For a plan whose step numbers differ and a
    run result aligned with it, the recovery pass runs [_execute_step] once
    for every FAILED entry, in the order of the plan, and puts the new
    result where the old one stood; the other entries stay.  [_execute_step]
    reads no dependency: a step that failed with "Dependencies not met" is
    looked up in the registry and its tool is called, whatever became of
    the steps it depends on.  When some entry was FAILED the flags are
    computed again and the verifier runs in the world the re-executions
    leave. *)
Theorem recovery_reexecutes_in_place (task : string) (plan : ExecutionPlan)
    (er : ExecutionResult) (v : VerificationResult) (w : World) :
  Forall2 (fun s r => sr_step_number r = step_number s)
    (steps plan) (step_results er) ->
  NoDup (map step_number (steps plan)) ->
  let pairs := zip (steps plan) (step_results er) in
  let recovered := recover_in_place format_tool execute pairs w in
  let out := _retry_failed_steps format_tool execute llm_verify task plan
               er v w in
  step_results (fst (fst out)) = fst recovered
  /\ (count_failed (step_results er) = 0%nat -> out = ((er, v), w))
  /\ (count_failed (step_results er) <> 0%nat ->
        let rs := fst recovered in
        let er' := mkExecutionResult (er_plan er) rs
                     (count_completed rs =? length rs)%nat
                     ((0 <? count_completed rs)%nat
                      && negb (count_completed rs =? length rs)%nat) in
        let reverified := VerifierAgent_run llm_verify task er' (snd recovered) in
        out = ((er', fst reverified), snd reverified))
  /\ (forall step deps w0,
        _execute_step format_tool execute (with_depends_on step deps) w0
        = _execute_step format_tool execute step w0).
Proof.
  intros Haligned Hnodup. cbv zeta.
  pose proof (retry_each_in_place _ _ Haligned [] w Hnodup
                (List.Forall_nil _)) as Hloop. cbn [app] in Hloop.
  assert (Hcount : forall rs : list (@StepResult ToolType Payload),
            forall ss : list (@PlanStep ToolType),
            Forall2 (fun s r => sr_step_number r = step_number s) ss rs ->
            count_failed rs = 0%nat
            <-> List.filter (fun sr => bool_decide (status (snd sr) = FAILED))
                  (zip ss rs) = []).
  { unfold count_failed. induction 1 as [|s r ss rs _ _ IH];
      [split; intros _; reflexivity|].
    cbn [zip zip_with List.filter snd]. rewrite filter_cons.
    destruct (decide (status r = FAILED)) as [Hf|Hf].
    - rewrite bool_decide_eq_true_2 by exact Hf. cbn. split; discriminate.
    - rewrite bool_decide_eq_false_2 by exact Hf. exact IH. }
  specialize (Hcount _ _ Haligned).
  unfold _retry_failed_steps.
  destruct (List.filter _ (zip (steps plan) (step_results er)))
    as [|p failed] eqn:Hfailed.
  - rewrite (recover_in_place_nothing_failed _ w Hfailed).
    rewrite (zip_snd_aligned _ _ Haligned). unfold ret. cbn [fst snd].
    split; [reflexivity|]. split; [reflexivity|].
    split; [|intros; apply execute_step_ignores_dependencies].
    intros Hne. exfalso. apply Hne. apply Hcount. reflexivity.
  - unfold bind. rewrite Hloop.
    destruct (recover_in_place format_tool execute
                (zip (steps plan) (step_results er)) w) as [rs' w1].
    cbn [fst snd].
    destruct (VerifierAgent_run llm_verify task _ w1) as [v' w2].
    unfold ret. cbn [fst snd step_results].
    split; [reflexivity|].
    split; [intros Hz; apply Hcount in Hz; discriminate|].
    split; [reflexivity|intros; apply execute_step_ignores_dependencies].
Qed.

(** * Further properties of the code *)

(** ** tools/base.py: the registry *)

(** X1. Registering a tool makes it the answer for its type and for no
    other type; a later registration under the same type replaces it for
    good; after [clear] no lookup succeeds.  Lookups change nothing. *)
Theorem registry_register_get (t : @BaseTool ToolType) (w : World) :
  let w1 := snd (ToolRegistry_register t w) in
  ToolRegistry_get (tool_type t) w1 = (Some t, w1)
  /\ (forall other, other <> tool_type t ->
        fst (ToolRegistry_get other w1) = fst (ToolRegistry_get other w))
  /\ (forall t2, tool_type t2 = tool_type t ->
        snd (ToolRegistry_register t2 w1) = snd (ToolRegistry_register t2 w))
  /\ (forall any, fst (ToolRegistry_get any (snd (ToolRegistry_clear w1))) = None)
  /\ tool_calls w1 = tool_calls w /\ llm_calls w1 = llm_calls w
  /\ log w1 = log w.
Proof.
  cbv zeta. unfold ToolRegistry_register, ToolRegistry_get, ToolRegistry_clear,
    set_registry. cbn [fst snd registry tool_calls llm_calls log].
  split; [rewrite lookup_insert_eq; reflexivity|].
  split; [intros other Hne; apply lookup_insert_ne; congruence|].
  split; [intros t2 Ht2; rewrite Ht2, insert_insert_eq; reflexivity|].
  split; [intros any; apply lookup_empty|auto].
Qed.

(** ** agents/executor.py: one step *)

Lemma slept_app (l1 l2 : list (@Event ToolType)) :
  slept (l1 ++ l2) = (slept l1 + slept l2)%nat.
Proof.
  unfold slept. induction l1 as [|e l1 IH]; [reflexivity|].
  cbn [app fold_right]. rewrite IH. destruct e; lia.
Qed.

Lemma bounded_ret {A : Type} (a : A) :
  bounded_effect 0 0 (@ret ToolType _ _ A a).
Proof. intros w. cbn. repeat split; lia. Qed.

Lemma bounded_bind {A B : Type} (c1 s1 c2 s2 : nat)
    (m : @Exec ToolType _ _ A) (k : A -> Exec B) :
  bounded_effect c1 s1 m -> (forall a, bounded_effect c2 s2 (k a)) ->
  bounded_effect (c1 + c2) (s1 + s2) (bind m k).
Proof.
  intros Hm Hk w. unfold bind. specialize (Hm w). cbv zeta in Hm.
  destruct (m w) as [a w1]. specialize (Hk a w1). cbv zeta in *.
  cbn [snd] in Hm.
  destruct Hm as (Hr1 & Hl1 & Hc1 & Hs1), Hk as (Hr2 & Hl2 & Hc2 & Hs2).
  repeat split; try congruence; lia.
Qed.

Lemma bounded_weaken {A : Type} (c1 s1 c2 s2 : nat) (m : @Exec ToolType _ _ A) :
  (c1 <= c2)%nat -> (s1 <= s2)%nat ->
  bounded_effect c1 s1 m -> bounded_effect c2 s2 m.
Proof.
  intros Hc Hs Hm w. specialize (Hm w). cbv zeta in *.
  destruct Hm as (Hr & Hl & Hcalls & Hsl). repeat split; try assumption; lia.
Qed.

Lemma bounded_emit (e : @Event ToolType) :
  bounded_effect 0 (match e with Sleep n => n | _ => 0 end) (emit e).
Proof.
  intros w. unfold emit. cbn [snd registry llm_calls tool_calls log].
  rewrite slept_app. repeat split; try lia. destruct e; cbn; lia.
Qed.

Lemma bounded_safe_execute (self : BaseTool) kwargs :
  bounded_effect 1 0 (safe_execute execute self kwargs).
Proof.
  intros w. unfold safe_execute, bind, emit, next_tool_call. cbn [fst snd].
  destruct (execute self kwargs _); unfold ret;
    cbn [snd registry llm_calls tool_calls log]; rewrite slept_app; cbn;
    repeat split; lia.
Qed.

Lemma bounded_retry_loop (self : BaseTool) (step : PlanStep)
    (remaining count : nat) last_error :
  bounded_effect remaining (backoff_budget remaining count)
    (retry_loop execute self step remaining count last_error).
Proof.
  revert count last_error.
  induction remaining as [|remaining IH]; intros count last_error.
  - apply bounded_ret.
  - cbn [retry_loop backoff_budget].
    change (S remaining) with (1 + remaining)%nat.
    change (bounded_effect (1 + remaining)
              (0 + ((if (S count <? max_retries)%nat then S count else 0)
                    + backoff_budget remaining (S count)))
              (bind (safe_execute execute self (parameters step))
                 (fun outcome => match outcome with
                    | Ok tool_result =>
                        if tr_success tool_result
                        then ret (mkStepResult (step_number step) COMPLETED
                                    (Some tool_result) count None)
                        else bind (if (S count <? max_retries)%nat
                                   then emit (Sleep (1 * S count)) else ret tt)
                               (fun _ => retry_loop execute self step remaining
                                           (S count) (tr_error tool_result))
                    | Raised e => retry_loop execute self step remaining
                                    (S count) (Some e)
                    end))).
    apply bounded_bind; [apply bounded_safe_execute|].
    intros [tr|e].
    + destruct (tr_success tr).
      * eapply bounded_weaken; [| |apply bounded_ret]; lia.
      * change remaining with (0 + remaining)%nat at 1.
        apply bounded_bind; [|intros _; apply IH].
        destruct (S count <? max_retries)%nat.
        -- rewrite Nat.mul_1_l. apply (bounded_emit (Sleep (S count))).
        -- apply bounded_ret.
    + eapply bounded_weaken; [| |apply IH]; lia.
Qed.

Lemma bounded_execute_step (step : PlanStep) :
  bounded_effect 3 3 (_execute_step format_tool execute step).
Proof.
  unfold _execute_step.
  change (bounded_effect (0 + (0 + 3)) (0 + (0 + 3))
            (bind (emit (LogExecuting (step_number step)))
               (fun _ => bind (ToolRegistry_get (tool step))
                  (fun found => match found with
                     | Some self => retry_loop execute self step max_retries 0 None
                     | None => ret (mkStepResult (step_number step) FAILED None 0
                                 (Some ("Tool not found: " +:+ format_tool (tool step))))
                     end)))).
  apply bounded_bind; [apply (bounded_emit (LogExecuting (step_number step)))|].
  intros _. apply bounded_bind.
  - intros w. cbn. repeat split; lia.
  - intros [self|].
    + apply (bounded_retry_loop self step max_retries 0 None).
    + eapply bounded_weaken; [| |apply bounded_ret]; lia.
Qed.

(** The loop after [k] failing calls followed by a call that succeeds. *)
Lemma retry_loop_succeeds_after (self : BaseTool) (step : PlanStep)
    (r : ToolResult) (k : nat) :
  forall (remaining count : nat) last_error (w : World),
    (k < remaining)%nat ->
    (count + k < max_retries)%nat ->
    (forall i, (i < k)%nat ->
       failing_outcome (execute self (parameters step) (tool_calls w + i))) ->
    execute self (parameters step) (tool_calls w + k) = Returns r ->
    tr_success r = true ->
    retry_loop execute self step remaining count last_error w
    = (mkStepResult (step_number step) COMPLETED (Some r) (count + k) None,
       mkWorld (registry w) (tool_calls w + S k) (llm_calls w)
         (log w
          ++ backoff_trace (ToolCall (tool_type self) (parameters step)) count k
          ++ [ToolCall (tool_type self) (parameters step)])).
Proof.
  induction k as [|k IH]; intros remaining count last_error w Hrem Hcount
    Hfail Hlast Hok.
  - destruct remaining as [|remaining]; [lia|].
    rewrite Nat.add_0_r in Hlast |- *.
    cbn [retry_loop backoff_trace app]. unfold bind, safe_execute, bind, emit,
      next_tool_call. cbn [fst snd registry tool_calls llm_calls log].
    rewrite Hlast. unfold ret. rewrite Hok.
    replace (tool_calls w + 1)%nat with (S (tool_calls w)) by lia. reflexivity.
  - destruct remaining as [|remaining]; [lia|].
    rewrite retry_loop_failing_call
      by (specialize (Hfail 0%nat ltac:(lia));
          rewrite Nat.add_0_r in Hfail; exact Hfail).
    replace (S count <? max_retries)%nat with true
      by (symmetry; apply Nat.ltb_lt; lia).
    rewrite (IH remaining (S count)); cbn [tool_calls registry llm_calls log].
    + f_equal; [f_equal; lia|]. f_equal; [lia|].
      cbn [backoff_trace]. rewrite <- !app_assoc. reflexivity.
    + lia.
    + lia.
    + intros i Hi. replace (S (tool_calls w) + i)%nat
        with (tool_calls w + S i)%nat by lia. apply Hfail. lia.
    + replace (S (tool_calls w) + k)%nat with (tool_calls w + S k)%nat by lia.
      exact Hlast.
    + exact Hok.
Qed.

(** X3. A registered tool that fails [k] times (k below the budget of 3)
    and then succeeds: the step is COMPLETED with the successful outcome and
    [retry_count] k, after k + 1 calls and a wait of 1, ..., k seconds after
    the failed ones; nothing else happens. *)
Theorem execute_step_succeeds_after (step : PlanStep) (self : BaseTool)
    (r : ToolResult) (k : nat) (w : World) :
  registry w !! tool step = Some self ->
  (k < max_retries)%nat ->
  (forall i, (i < k)%nat ->
     failing_outcome (execute self (parameters step) (tool_calls w + i))) ->
  execute self (parameters step) (tool_calls w + k) = Returns r ->
  tr_success r = true ->
  _execute_step format_tool execute step w
  = (mkStepResult (step_number step) COMPLETED (Some r) k None,
     mkWorld (registry w) (tool_calls w + S k) (llm_calls w)
       (log w
        ++ LogExecuting (step_number step)
        :: backoff_trace (ToolCall (tool_type self) (parameters step)) 0 k
        ++ [ToolCall (tool_type self) (parameters step)])).
Proof.
  intros Hreg Hk Hfail Hlast Hok.
  rewrite (execute_step_registered step self w Hreg).
  rewrite (retry_loop_succeeds_after self step r k max_retries 0 None);
    cbn [tool_calls registry llm_calls log]; try assumption; try lia.
  rewrite <- app_assoc. reflexivity.
Qed.

(** X4. When every call raises past [safe_execute], the three attempts
    follow one another without any wait, and the step is FAILED with
    [retry_count] 3 and the text of the last exception. *)
Theorem execute_step_escaping_calls (step : PlanStep) (self : BaseTool)
    (w : World) (e1 e2 e3 : string) :
  registry w !! tool step = Some self ->
  execute self (parameters step) (tool_calls w) = Escapes e1 ->
  execute self (parameters step) (S (tool_calls w)) = Escapes e2 ->
  execute self (parameters step) (S (S (tool_calls w))) = Escapes e3 ->
  _execute_step format_tool execute step w
  = (mkStepResult (step_number step) FAILED None 3
       (Some (str_or (Some e3) "Max retries exceeded")),
     mkWorld (registry w) (tool_calls w + 3) (llm_calls w)
       (log w ++ [LogExecuting (step_number step);
                  ToolCall (tool_type self) (parameters step);
                  ToolCall (tool_type self) (parameters step);
                  ToolCall (tool_type self) (parameters step)])).
Proof.
  intros Hreg H1 H2 H3.
  rewrite (execute_step_registered step self w Hreg).
  unfold max_retries. cbn [retry_loop].
  unfold bind, safe_execute, bind, emit, next_tool_call.
  cbn [fst snd registry tool_calls llm_calls log].
  rewrite H1. unfold ret at 1. cbn [fst snd registry tool_calls llm_calls log].
  rewrite H2. unfold ret at 1. cbn [fst snd registry tool_calls llm_calls log].
  rewrite H3. unfold ret. rewrite <- !app_assoc.
  replace (tool_calls w + 3)%nat with (S (S (S (tool_calls w)))) by lia.
  reflexivity.
Qed.

Lemma str_or_not_empty (x : option string) (default : string) :
  default <> "" -> str_or x default <> "".
Proof.
  intros Hd. unfold str_or. destruct x as [s0|]; [|exact Hd].
  destruct (decide (s0 = "")); assumption.
Qed.

Lemma retry_loop_settled (self : BaseTool) (step : PlanStep)
    (remaining count : nat) last_error (w w' : World) (r : StepResult) :
  (count + remaining = max_retries)%nat ->
  retry_loop execute self step remaining count last_error w = (r, w') ->
  settled r.
Proof.
  revert count last_error w.
  induction remaining as [|remaining IH]; intros count last_error w Hsum Hrun.
  - cbn in Hrun. inversion Hrun; subst r w'. unfold settled. cbn.
    split; [reflexivity|]. split; [|right; lia].
    eexists. split; [reflexivity|]. apply str_or_not_empty. discriminate.
  - cbn [retry_loop] in Hrun. unfold bind at 1 in Hrun.
    destruct (safe_execute execute self (parameters step) w) as [[tr|e] w1].
    + destruct (tr_success tr) eqn:Hok.
      * inversion Hrun; subst r w'. unfold settled. cbn.
        split; [exists tr; auto|]. split; [reflexivity|lia].
      * unfold bind at 1 in Hrun.
        destruct ((if (S count <? max_retries)%nat
                   then emit (Sleep (1 * S count)) else ret ()) w1) as [u w2].
        apply IH in Hrun; [exact Hrun|lia].
    + apply IH in Hrun; [exact Hrun|lia].
Qed.

Lemma execute_step_settled (step : PlanStep) (w w' : World) (r : StepResult) :
  _execute_step format_tool execute step w = (r, w') -> settled r.
Proof.
  destruct (registry w !! tool step) as [self|] eqn:Hreg.
  - rewrite (execute_step_registered step self w Hreg).
    apply retry_loop_settled. reflexivity.
  - rewrite (execute_step_unregistered step w Hreg).
    intros Hrun. inversion Hrun; subst r w'. unfold settled. cbn.
    split; [reflexivity|]. split; [|auto].
    eexists. split; [reflexivity|]. discriminate.
Qed.

(** ** agents/executor.py: the plan runner *)

(** What the loop of the runner keeps, whatever state it starts from: the
    new results are settled and carry the numbers of the steps in order;
    the mapping holds the latest result of every number met and is
    unchanged elsewhere. *)
Lemma run_loop_invariant (todo : list PlanStep) rs cs (w : World) :
  exists new,
    fst (fst (run_loop format_tool execute todo rs cs w)) = rs ++ new
    /\ map sr_step_number new = map step_number todo
    /\ Forall settled new
    /\ forall n,
         snd (fst (run_loop format_tool execute todo rs cs w)) !! n
         = match latest n new with
           | Some r => Some r
           | None => cs !! n
           end.
Proof.
  revert rs cs w. induction todo as [|step todo IH]; intros rs cs w.
  - exists []. cbn. rewrite app_nil_r. repeat split; constructor.
  - cbn [run_loop]. unfold bind at 1 2.
    destruct ((if negb (_dependencies_met (depends_on step) cs)
               then ret (mkStepResult (step_number step) FAILED None 0
                           (Some "Dependencies not met"))
               else _execute_step format_tool execute step) w)
      as [r w1] eqn:Hstep.
    assert (Hr : sr_step_number r = step_number step /\ settled r).
    { destruct (negb (_dependencies_met (depends_on step) cs)).
      - inversion Hstep; subst r w1. split; [reflexivity|].
        unfold settled. cbn. split; [reflexivity|]. split; [|auto].
        eexists. split; [reflexivity|]. discriminate.
      - split; [apply (execute_step_result step w w1 r Hstep)|].
        apply (execute_step_settled step w w1 r Hstep). }
    destruct Hr as [Hnum Hsettled].
    destruct (IH (rs ++ [r]) (<[step_number step := r]> cs) w1)
      as (new & Hnew & Hnums & Hall & Hmap).
    exists (r :: new). split; [rewrite Hnew, <- app_assoc; reflexivity|].
    split; [cbn [map]; rewrite Hnum, Hnums; reflexivity|].
    split; [constructor; assumption|].
    intros n. rewrite Hmap. unfold latest. rewrite filter_cons.
    destruct (decide (sr_step_number r = n)) as [Heq|Hne].
    + rewrite last_cons.
      destruct (last (filter (fun r0 => sr_step_number r0 = n) new)); [reflexivity|].
      rewrite <- Heq, Hnum. apply lookup_insert_eq.
    + destruct (last (filter (fun r0 => sr_step_number r0 = n) new)); [reflexivity|].
      apply lookup_insert_ne. congruence.
Qed.

(** X5. Every result the plan runner returns is settled: a COMPLETED
    result carries a successful tool outcome and no error, a FAILED one
    carries no outcome and an error text that is not empty, with no retry
    at all or the whole budget of retries; and the results carry the step
    numbers of the plan, position by position. *)
Theorem executor_run_results_settled (plan : ExecutionPlan) (w : World) :
  let er := fst (ExecutorAgent_run format_tool execute plan w) in
  Forall settled (step_results er)
  /\ map sr_step_number (step_results er) = map step_number (steps plan)
  /\ er_plan er = plan.
Proof.
  cbv zeta. unfold ExecutorAgent_run, bind.
  destruct (run_loop_invariant (steps plan) [] ∅ w)
    as (new & Hnew & Hnums & Hall & _).
  destruct (run_loop format_tool execute (steps plan) [] ∅ w) as [acc w1].
  unfold ret. cbn [fst snd step_results er_plan app] in *.
  rewrite Hnew. auto.
Qed.

Lemma dependencies_met_true (deps : list Z)
    (completed : gmap Z (@StepResult ToolType Payload)) :
  _dependencies_met deps completed = true
  <-> Forall (fun dep => exists r, completed !! dep = Some r
                                   /\ status r = COMPLETED) deps.
Proof.
  unfold _dependencies_met. rewrite forallb_forall, List.Forall_forall.
  split; intros Hall dep Hin; specialize (Hall dep Hin).
  - destruct (completed !! dep) as [r|]; [|discriminate].
    exists r. split; [reflexivity|]. apply bool_decide_eq_true in Hall. exact Hall.
  - destruct Hall as (r & -> & Hr). apply bool_decide_eq_true. exact Hr.
Qed.

(** The run of a plan, seen from one of its steps. *)
Lemma run_at_step (plan : ExecutionPlan) (pre post : list PlanStep)
    (step : PlanStep) (w : World) :
  steps plan = pre ++ step :: post ->
  exists new cs w1 r w2 rest,
    run_loop format_tool execute pre [] ∅ w = ((new, cs), w1)
    /\ length new = length pre
    /\ map sr_step_number new = map step_number pre
    /\ (forall n, cs !! n = latest n new)
    /\ (if negb (_dependencies_met (depends_on step) cs)
        then ret (unmet_result step)
        else _execute_step format_tool execute step) w1 = (r, w2)
    /\ step_results (fst (ExecutorAgent_run format_tool execute plan w))
       = new ++ r :: rest.
Proof.
  intros Hplan.
  unfold ExecutorAgent_run, bind. rewrite Hplan, run_loop_app.
  destruct (run_loop_invariant pre [] ∅ w) as (new & Hnew & Hnums & _ & Hmap).
  destruct (run_loop format_tool execute pre [] ∅ w) as [[rs cs] w1].
  cbn [fst snd app] in Hnew, Hmap |- *. subst rs.
  cbn [run_loop]. unfold bind at 1. fold (@unmet_result ToolType Payload step).
  destruct ((if negb (_dependencies_met (depends_on step) cs)
             then ret (unmet_result step)
             else _execute_step format_tool execute step) w1)
    as [r w2] eqn:Hstep.
  destruct (run_loop_invariant post (new ++ [r]) (<[step_number step := r]> cs) w2)
    as (rest & Hrest & _).
  destruct (run_loop format_tool execute post (new ++ [r]) _ w2) as [acc w3].
  unfold ret. cbn [fst snd step_results] in Hrest |- *.
  exists new, cs, w1, r, w2, rest.
  split; [reflexivity|]. split.
  { apply (f_equal (@length Z)) in Hnums. rewrite !length_map in Hnums.
    exact Hnums. }
  split; [exact Hnums|]. split.
  { intros n. rewrite Hmap, lookup_empty. destruct (latest n new); reflexivity. }
  split; [exact Hstep|].
  rewrite Hrest, <- app_assoc. reflexivity.
Qed.

(** X6. The dependency check of the runner reads, for each dependency,
    the latest result among the steps listed before.  If each of them is
    COMPLETED the step is executed, in the world the earlier steps leave;
    if one is missing or not COMPLETED the step fails with "Dependencies not
    met".  In particular a dependency on a number that no earlier step
    carries (the step itself, a later step, no step at all) is never met. *)
Theorem dependency_check_reads_latest (plan : ExecutionPlan)
    (pre post : list PlanStep) (step : PlanStep) (w : World) :
  steps plan = pre ++ step :: post ->
  let rs := step_results (fst (ExecutorAgent_run format_tool execute plan w)) in
  let earlier := take (length pre) rs in
  let reached := snd (run_loop format_tool execute pre [] ∅ w) in
  (Forall (fun dep => exists r, latest dep earlier = Some r
                                /\ status r = COMPLETED) (depends_on step) ->
   rs !! length pre = Some (fst (_execute_step format_tool execute step reached)))
  /\ (Exists (fun dep => match latest dep earlier with
                         | None => True
                         | Some r => status r <> COMPLETED
                         end) (depends_on step) ->
      rs !! length pre = Some (unmet_result step))
  /\ (forall dep, dep ∈ depends_on step -> dep ∉ map step_number pre ->
      rs !! length pre = Some (unmet_result step)).
Proof.
  intros Hplan. cbv zeta.
  destruct (run_at_step plan pre post step w Hplan)
    as (new & cs & w1 & r & w2 & rest & Hpre & Hlen & Hnums & Hlook & Hstep & Hrs).
  rewrite Hrs, Hpre. cbn [snd].
  assert (Hearlier : take (length pre) (new ++ r :: rest) = new)
    by (rewrite <- Hlen; apply take_app_length).
  assert (Hat : (new ++ r :: rest) !! length pre = Some r).
  { rewrite lookup_app_r by lia. rewrite Hlen, Nat.sub_diag. reflexivity. }
  rewrite Hearlier, Hat.
  assert (Hunmet : Exists (fun dep => match latest dep new with
                                      | None => True
                                      | Some r0 => status r0 <> COMPLETED
                                      end) (depends_on step) ->
                   Some r = Some (unmet_result step)).
  { intros Hex.
    assert (Hfalse : _dependencies_met (depends_on step) cs = false).
    { apply dependencies_met_false. eapply Exists_impl; [exact Hex|].
      intros dep Hdep. rewrite Hlook. exact Hdep. }
    rewrite Hfalse in Hstep. inversion Hstep. reflexivity. }
  split; [|split; [exact Hunmet|]].
  - intros Hall.
    assert (Htrue : _dependencies_met (depends_on step) cs = true).
    { apply dependencies_met_true. eapply Forall_impl; [exact Hall|].
      intros dep Hdep. rewrite Hlook. exact Hdep. }
    rewrite Htrue in Hstep. cbn [negb] in Hstep. rewrite Hstep. reflexivity.
  - intros dep Hin Hfresh. apply Hunmet. apply Exists_exists.
    exists dep. split; [exact Hin|].
    assert (Hnone : latest dep new = None); [|rewrite Hnone; exact I].
    unfold latest. apply last_None.
    destruct (filter (fun r0 => sr_step_number r0 = dep) new) as [|x l] eqn:Hf;
      [reflexivity|exfalso].
    assert (Hx : x ∈ filter (fun r0 => sr_step_number r0 = dep) new)
      by (rewrite Hf; apply list_elem_of_here).
    apply list_elem_of_filter in Hx. destruct Hx as [Hnum Hx].
    apply Hfresh. rewrite <- Hnums, <- Hnum.
    apply list_elem_of_In, in_map, list_elem_of_In. exact Hx.
Qed.

Lemma bounded_run_loop (todo : list PlanStep) rs cs :
  bounded_effect (3 * length todo) (3 * length todo)
    (run_loop format_tool execute todo rs cs).
Proof.
  revert rs cs. induction todo as [|step todo IH]; intros rs cs.
  - apply bounded_ret.
  - cbn [run_loop length].
    replace (3 * S (length todo))%nat with (3 + 3 * length todo)%nat by lia.
    apply bounded_bind; [|intros r; apply IH].
    destruct (negb _).
    + eapply bounded_weaken; [| |apply bounded_ret]; lia.
    + apply bounded_execute_step.
Qed.

Lemma bounded_executor_run (plan : ExecutionPlan) :
  bounded_effect (3 * length (steps plan)) (3 * length (steps plan))
    (ExecutorAgent_run format_tool execute plan).
Proof.
  unfold ExecutorAgent_run.
  replace (3 * length (steps plan))%nat
    with (3 * length (steps plan) + 0)%nat by lia.
  apply bounded_bind; [apply bounded_run_loop|].
  intros acc. apply bounded_ret.
Qed.

(** X2. One step, whatever its outcome: the result carries the number of
    the step and is settled; the registry and the count of generation
    calls are left alone; at most three tool calls are made and at most
    three seconds are slept in all. *)
Theorem execute_step_effects (step : PlanStep) (w : World) :
  let r := fst (_execute_step format_tool execute step w) in
  let w' := snd (_execute_step format_tool execute step w) in
  sr_step_number r = step_number step
  /\ settled r
  /\ registry w' = registry w
  /\ llm_calls w' = llm_calls w
  /\ (tool_calls w <= tool_calls w' <= tool_calls w + 3)%nat
  /\ (slept (log w') <= slept (log w) + 3)%nat.
Proof.
  cbv zeta. pose proof (bounded_execute_step step w) as Hb. cbv zeta in Hb.
  destruct (_execute_step format_tool execute step w) as [r w'] eqn:Hrun.
  cbn [fst snd] in *.
  split; [apply (execute_step_result step w w' r Hrun)|].
  split; [apply (execute_step_settled step w w' r Hrun)|exact Hb].
Qed.

(** X7. Running a plan never touches the registry nor the generation
    service, makes at most three tool calls per step and sleeps at most
    three seconds per step; a plan without steps changes nothing and is
    reported as a success. *)
Theorem executor_run_effects (plan : ExecutionPlan) (w : World) :
  let er := fst (ExecutorAgent_run format_tool execute plan w) in
  let w' := snd (ExecutorAgent_run format_tool execute plan w) in
  registry w' = registry w
  /\ llm_calls w' = llm_calls w
  /\ (tool_calls w <= tool_calls w'
      <= tool_calls w + 3 * length (steps plan))%nat
  /\ (slept (log w') <= slept (log w) + 3 * length (steps plan))%nat
  /\ (steps plan = [] ->
      w' = w /\ er = mkExecutionResult plan [] true false).
Proof.
  cbv zeta. pose proof (bounded_executor_run plan w) as Hb. cbv zeta in Hb.
  destruct Hb as (Hr & Hl & Hc & Hs).
  split; [exact Hr|]. split; [exact Hl|]. split; [exact Hc|].
  split; [exact Hs|].
  intros Hnil. unfold ExecutorAgent_run, bind. rewrite Hnil. split; reflexivity.
Qed.

(** ** agents/verifier.py: the fallback verification *)

Lemma pos_of_nat_Z (b : nat) : (0 < b)%nat -> Z.pos (Pos.of_nat b) = Z.of_nat b.
Proof.
  intros Hb. destruct b as [|b]; [lia|].
  rewrite <- Pos.of_nat_succ, Zpos_P_of_succ_nat. lia.
Qed.




Lemma true_div_same (b : nat) : (0 < b)%nat -> true_div b b = 1%Qc.
Proof.
  intros Hb. apply Qc_is_canon. unfold true_div. cbn [this Q2Qc].
  rewrite ?Qred_correct. unfold Qeq. cbn [Qnum Qden].
  rewrite (pos_of_nat_Z b Hb). cbn. lia.
Qed.

Lemma count_completed_le (rs : list (@StepResult ToolType Payload)) :
  (count_completed rs <= length rs)%nat.
Proof. unfold count_completed. apply length_filter. Qed.


(** ** agents/orchestrator.py: the recovery pass *)

Lemma replace_first_numbers (n : Z) (new : @StepResult ToolType Payload)
    (rs : list StepResult) :
  sr_step_number new = n ->
  map sr_step_number (replace_first n new rs) = map sr_step_number rs.
Proof.
  intros Hnew. induction rs as [|r rs IH]; [reflexivity|].
  cbn [replace_first]. destruct (decide (sr_step_number r = n)) as [Heq|Hne].
  - cbn [map]. congruence.
  - cbn [map]. rewrite IH. reflexivity.
Qed.

Lemma replace_first_settled (n : Z) (new : @StepResult ToolType Payload)
    (rs : list StepResult) :
  settled new -> Forall settled rs -> Forall settled (replace_first n new rs).
Proof.
  intros Hnew. induction 1 as [|r rs Hr Hrs IH]; [constructor|].
  cbn [replace_first]. destruct (decide (sr_step_number r = n));
    constructor; assumption.
Qed.

Lemma retry_each_keeps (failed : list (PlanStep * StepResult))
    (rs : list StepResult) (w : World) :
  let rs' := fst (retry_each format_tool execute failed rs w) in
  map sr_step_number rs' = map sr_step_number rs
  /\ (Forall settled rs -> Forall settled rs').
Proof.
  cbv zeta. revert rs w. induction failed as [|[step old] failed IH]; intros rs w.
  - cbn. auto.
  - cbn [retry_each]. unfold bind.
    destruct (_execute_step format_tool execute step w) as [new w1] eqn:Hex.
    pose proof (execute_step_result step w w1 new Hex) as [Hnum _].
    pose proof (execute_step_settled step w w1 new Hex) as Hset.
    destruct (IH (replace_first (step_number step) new rs) w1) as [Hnums Hall].
    split.
    + rewrite Hnums. apply replace_first_numbers. exact Hnum.
    + intros Hrs. apply Hall. apply replace_first_settled; assumption.
Qed.

(** X9. Whatever the plan and the run result, the recovery pass keeps the
    plan, the length of the step list and the step number at every
    position, and it keeps the results settled. *)
Theorem recovery_keeps_step_numbers (task : string) (plan : ExecutionPlan)
    (er : ExecutionResult) (v : VerificationResult) (w : World) :
  let er' := fst (fst (_retry_failed_steps format_tool execute llm_verify
                         task plan er v w)) in
  map sr_step_number (step_results er') = map sr_step_number (step_results er)
  /\ length (step_results er') = length (step_results er)
  /\ er_plan er' = er_plan er
  /\ (Forall settled (step_results er) -> Forall settled (step_results er')).
Proof.
  cbv zeta.
  assert (Hgoal :
    map sr_step_number
      (step_results (fst (fst (_retry_failed_steps format_tool execute llm_verify
                                 task plan er v w))))
    = map sr_step_number (step_results er)
    /\ er_plan (fst (fst (_retry_failed_steps format_tool execute llm_verify
                            task plan er v w))) = er_plan er
    /\ (Forall settled (step_results er) ->
        Forall settled
          (step_results (fst (fst (_retry_failed_steps format_tool execute
                                     llm_verify task plan er v w)))))).
  { unfold _retry_failed_steps.
    destruct (List.filter _ (zip (steps plan) (step_results er)))
      as [|p failed]; [cbn; auto|].
    unfold bind.
    pose proof (retry_each_keeps (p :: failed) (step_results er) w) as Hkeep.
    cbv zeta in Hkeep.
    destruct (retry_each format_tool execute (p :: failed) (step_results er) w)
      as [rs' w1].
    destruct (VerifierAgent_run llm_verify task _ w1) as [v' w2].
    unfold ret. cbn [fst snd step_results er_plan] in *.
    destruct Hkeep as [Hnums Hall]. auto. }
  destruct Hgoal as (Hnums & Hplan & Hall).
  split; [exact Hnums|]. split; [|auto].
  apply (f_equal (@length Z)) in Hnums. rewrite !length_map in Hnums. exact Hnums.
Qed.

(** What the replacement by position leaves alone. *)
Lemma recover_in_place_keeps (pairs : list (PlanStep * StepResult)) (w : World) :
  Forall2 (fun p r' => status (snd p) <> FAILED -> r' = snd p) pairs
    (fst (recover_in_place format_tool execute pairs w)).
Proof.
  revert w. induction pairs as [|[step old] pairs IH]; intros w.
  - constructor.
  - cbn [recover_in_place]. unfold bind.
    destruct ((if decide (status old = FAILED)
               then _execute_step format_tool execute step
               else ret old) w) as [r w1] eqn:Hr.
    specialize (IH w1).
    destruct (recover_in_place format_tool execute pairs w1) as [rs' w2].
    unfold ret. cbn [fst snd] in *. constructor; [|exact IH].
    intros Hnot. destruct (decide (status old = FAILED)); [contradiction|].
    inversion Hr. reflexivity.
Qed.

Lemma count_completed_monotone (rs rs' : list (@StepResult ToolType Payload)) :
  Forall2 (fun r r' => status r <> FAILED -> r' = r) rs rs' ->
  (count_completed rs <= count_completed rs')%nat.
Proof.
  unfold count_completed. induction 1 as [|r r' rs rs' Hr _ IH]; [reflexivity|].
  rewrite !filter_cons. destruct (decide (status r = COMPLETED)) as [Hc|Hc].
  - rewrite (Hr ltac:(congruence)). rewrite decide_True by exact Hc.
    cbn [length]. lia.
  - destruct (decide (status r' = COMPLETED)); cbn [length]; lia.
Qed.

(** The step list after the recovery pass, for a plan with distinct step
    numbers and a run result aligned with it. *)
Lemma retry_failed_steps_results (task : string) (plan : ExecutionPlan)
    (er : ExecutionResult) (v : VerificationResult) (w : World) :
  Forall2 (fun s r => sr_step_number r = step_number s)
    (steps plan) (step_results er) ->
  NoDup (map step_number (steps plan)) ->
  step_results (fst (fst (_retry_failed_steps format_tool execute llm_verify
                            task plan er v w)))
  = fst (recover_in_place format_tool execute
           (zip (steps plan) (step_results er)) w).
Proof.
  intros Haligned Hnodup.
  pose proof (retry_each_in_place _ _ Haligned [] w Hnodup
                (List.Forall_nil _)) as Hloop. cbn [app] in Hloop.
  unfold _retry_failed_steps.
  destruct (List.filter _ (zip (steps plan) (step_results er)))
    as [|p failed] eqn:Hfailed.
  - rewrite (recover_in_place_nothing_failed _ w Hfailed).
    rewrite (zip_snd_aligned _ _ Haligned). reflexivity.
  - unfold bind. rewrite Hloop.
    destruct (recover_in_place format_tool execute
                (zip (steps plan) (step_results er)) w) as [rs' w1].
    destruct (VerifierAgent_run llm_verify task _ w1) as [v' w2].
    reflexivity.
Qed.

(** X10. For a plan with distinct step numbers and a run result aligned
    with it, the recovery pass leaves every entry that is not FAILED as it
    is, so the number of COMPLETED steps never goes down. *)
Theorem recovery_never_loses_a_step (task : string) (plan : ExecutionPlan)
    (er : ExecutionResult) (v : VerificationResult) (w : World) :
  Forall2 (fun s r => sr_step_number r = step_number s)
    (steps plan) (step_results er) ->
  NoDup (map step_number (steps plan)) ->
  let er' := fst (fst (_retry_failed_steps format_tool execute llm_verify
                         task plan er v w)) in
  (forall i r, step_results er !! i = Some r -> status r <> FAILED ->
     step_results er' !! i = Some r)
  /\ (count_completed (step_results er) <= count_completed (step_results er'))%nat.
Proof.
  intros Haligned Hnodup. cbv zeta.
  rewrite (retry_failed_steps_results task plan er v w Haligned Hnodup).
  pose proof (recover_in_place_keeps (zip (steps plan) (step_results er)) w)
    as Hkeep.
  assert (Hkeep' : Forall2 (fun r r' => status r <> FAILED -> r' = r)
                     (step_results er)
                     (fst (recover_in_place format_tool execute
                             (zip (steps plan) (step_results er)) w))).
  { rewrite <- (zip_snd_aligned _ _ Haligned) at 1.
    apply Forall2_fmap_l. exact Hkeep. }
  split.
  - intros i r Hi Hnot.
    destruct (Forall2_lookup_l _ _ _ _ _ Hkeep' Hi) as (r' & Hi' & Hr').
    rewrite Hi', (Hr' Hnot). reflexivity.
  - apply count_completed_monotone. exact Hkeep'.
Qed.

(** ** agents/orchestrator.py: one run of the pipeline *)

Lemma verifier_run_frame (task : string) (er : ExecutionResult)
    (w w' : World) (v : VerificationResult) :
  VerifierAgent_run llm_verify task er w = (v, w') ->
  v = match llm_verify task er (llm_calls w) with
      | Some answer => answer
      | None => _create_fallback_verification task er
      end
  /\ registry w' = registry w
  /\ tool_calls w' = tool_calls w
  /\ llm_calls w' = S (llm_calls w)
  /\ slept (log w') = slept (log w).
Proof.
  unfold VerifierAgent_run, bind, emit, next_llm_call.
  cbn [fst snd registry tool_calls llm_calls log].
  destruct (llm_verify task er (llm_calls w)); unfold ret; intros Hrun;
    inversion Hrun; subst; cbn [registry tool_calls llm_calls log];
    rewrite slept_app; cbn; repeat split; lia.
Qed.

Lemma planner_run_frame (task : string) (w w' : World)
    (planned : Result ExecutionPlan) :
  PlannerAgent_run GITHUB WEATHER llm_plan task w = (planned, w') ->
  planned = match llm_plan task (llm_calls w) with
            | Some plan => Ok plan
            | None => _create_fallback_plan GITHUB WEATHER task
            end
  /\ w' = mkWorld (registry w) (tool_calls w) (S (llm_calls w)) (log w).
Proof.
  unfold PlannerAgent_run, bind, next_llm_call. cbn [fst snd].
  destruct (llm_plan task (llm_calls w)); unfold ret; intros Hrun;
    inversion Hrun; subst; split; reflexivity.
Qed.

Lemma bounded_retry_each (failed : list (PlanStep * StepResult)) rs :
  bounded_effect (3 * length failed) (3 * length failed)
    (retry_each format_tool execute failed rs).
Proof.
  revert rs. induction failed as [|[step old] failed IH]; intros rs.
  - apply bounded_ret.
  - cbn [retry_each length].
    replace (3 * S (length failed))%nat with (3 + 3 * length failed)%nat by lia.
    apply bounded_bind; [apply bounded_execute_step|].
    intros r. apply IH.
Qed.

Lemma executor_run_facts (plan : ExecutionPlan) (w : World) :
  exists rs w',
    ExecutorAgent_run format_tool execute plan w
    = (mkExecutionResult plan rs
         (count_completed rs =? length rs)%nat
         ((0 <? count_completed rs)%nat
          && negb (count_completed rs =? length rs)%nat), w')
    /\ map sr_step_number rs = map step_number (steps plan)
    /\ Forall settled rs.
Proof.
  unfold ExecutorAgent_run, bind.
  destruct (run_loop_invariant (steps plan) [] ∅ w)
    as (new & Hnew & Hnums & Hall & _).
  destruct (run_loop format_tool execute (steps plan) [] ∅ w) as [acc w1].
  cbn [fst app] in *. rewrite Hnew. exists new, w1. auto.
Qed.

Lemma settled_aligned (ss : list (@PlanStep ToolType))
    (rs : list (@StepResult ToolType Payload)) :
  map sr_step_number rs = map step_number ss ->
  Forall settled rs ->
  Forall2 (fun s r => sr_step_number r = step_number s
                      /\ (status r = COMPLETED \/ status r = FAILED)) ss rs.
Proof.
  revert rs. induction ss as [|s ss IH]; intros [|r rs] Hnums Hall;
    try discriminate; [constructor|].
  cbn [map] in Hnums. inversion Hnums. inversion Hall as [|? ? Hr Hrs]; subst.
  constructor; [|apply IH; assumption].
  split; [assumption|]. unfold settled in Hr.
  destruct (status r); [contradiction|auto|auto].
Qed.

(** One run whose planning returns a plan: the response, the world in
    which its verification was made, and what links them to the plan. *)
Lemma orchestrator_run_shape (task : string) (plan : ExecutionPlan)
    (w w1 : World) :
  PlannerAgent_run GITHUB WEATHER llm_plan task (snd (emit LogPlanning w))
  = (Ok plan, w1) ->
  exists er v w4 w',
    AgentOrchestrator_run GITHUB WEATHER format_tool execute llm_plan
      llm_verify task w
    = (Ok (mkAgentResponse task plan er v (is_valid v && er_success er)), w')
    /\ VerifierAgent_run llm_verify task er w4 = (v, w')
    /\ er_plan er = plan
    /\ map sr_step_number (step_results er) = map step_number (steps plan)
    /\ Forall settled (step_results er)
    /\ er_success er
       = (count_completed (step_results er) =? length (step_results er))%nat
    /\ partial_success er
       = ((0 <? count_completed (step_results er))%nat
          && negb (er_success er))
    /\ registry w4 = registry w1
    /\ (tool_calls w1 <= tool_calls w4
        <= tool_calls w1 + 6 * length (steps plan))%nat
    /\ (slept (log w4) <= slept (log w1) + 6 * length (steps plan))%nat
    /\ (llm_calls w4 = llm_calls w1 \/ llm_calls w4 = S (llm_calls w1)).
Proof.
  intros Hplan.
  destruct (executor_run_facts plan w1) as (rs & w2 & Hrun & Hnums & Hset).
  pose proof (bounded_executor_run plan w1) as Hb. cbv zeta in Hb.
  rewrite Hrun in Hb. cbn [snd] in Hb. destruct Hb as (Hr2 & Hl2 & Hc2 & Hs2).
  set (er := mkExecutionResult plan rs _ _) in *.
  destruct (VerifierAgent_run llm_verify task er w2) as [v w3] eqn:Hver.
  destruct (verifier_run_frame task er w2 w3 v Hver)
    as (_ & Hr3 & Hc3 & Hl3 & Hs3).
  unfold AgentOrchestrator_run, _execute_with_callbacks, bind.
  change (emit LogPlanning w) with (tt, snd (emit LogPlanning w)).
  cbv beta iota. rewrite Hplan. cbv beta iota. rewrite Hrun. cbv beta iota.
  rewrite Hver. cbv beta iota.
  destruct (negb (er_success er) && bool_decide (completeness_score v < 1)%Qc)
    eqn:Hcond.
  - apply andb_true_iff in Hcond. destruct Hcond as [Hns _].
    apply negb_true_iff in Hns.
    change (emit LogPhase4 w3) with (tt, snd (emit LogPhase4 w3)).
    cbv beta iota. unfold _retry_failed_steps.
    set (failed := List.filter _ (zip (steps plan) (step_results er))).
    assert (Hfl : (length failed <= length (steps plan))%nat).
    { subst failed. etransitivity; [apply List.filter_length_le|].
      rewrite length_zip. lia. }
    destruct failed as [|p failed'] eqn:Hfailed.
    + exfalso. revert Hfailed. subst failed.
      apply failed_steps_found; [apply settled_aligned; assumption|].
      apply Nat.eqb_neq. exact Hns.
    + rewrite <- Hfailed in *. unfold bind.
      pose proof (retry_each_keeps failed (step_results er)
                    (snd (emit LogPhase4 w3))) as Hkeep. cbv zeta in Hkeep.
      pose proof (bounded_retry_each failed (step_results er)
                    (snd (emit LogPhase4 w3))) as Hb4. cbv zeta in Hb4.
      destruct (retry_each format_tool execute failed (step_results er)
                  (snd (emit LogPhase4 w3))) as [rs' w4].
      cbn [fst snd] in Hkeep, Hb4.
      destruct Hkeep as [Hnums' Hset'], Hb4 as (Hr4 & Hl4 & Hc4 & Hs4).
      unfold emit in Hr4, Hl4, Hc4, Hs4.
      cbn [snd registry tool_calls llm_calls log] in Hr4, Hl4, Hc4, Hs4.
      rewrite slept_app in Hs4. cbn [slept fold_right] in Hs4.
      destruct (VerifierAgent_run llm_verify task _ w4) as [v' w5] eqn:Hver'.
      unfold ret. cbn [fst snd].
      eexists _, v', w4, w5. split; [reflexivity|].
      split; [exact Hver'|].
      cbn [er_plan step_results er_success partial_success].
      split; [reflexivity|].
      split; [rewrite Hnums'; subst er; exact Hnums|].
      split; [apply Hset'; subst er; exact Hset|].
      split; [reflexivity|]. split; [reflexivity|].
      split; [congruence|].
      split; [lia|]. split; [lia|]. right. congruence.
  - unfold ret. cbn [fst snd].
    exists er, v, w2, w3.
    split; [reflexivity|]. split; [exact Hver|]. split; [reflexivity|].
    split; [exact Hnums|]. split; [exact Hset|].
    split; [reflexivity|]. split; [reflexivity|].
    split; [exact Hr2|]. split; [lia|]. split; [lia|]. left. exact Hl2.
Qed.

Lemma all_completed (rs : list (@StepResult ToolType Payload)) :
  count_completed rs = length rs <-> Forall (fun r => status r = COMPLETED) rs.
Proof.
  unfold count_completed. induction rs as [|r rs IH].
  - split; [constructor|reflexivity].
  - rewrite filter_cons, Forall_cons.
    pose proof (count_completed_le rs) as Hle. unfold count_completed in Hle.
    destruct (decide (status r = COMPLETED)) as [Hc|Hc]; cbn [length].
    + rewrite <- IH. split; [intros Heq; split; [exact Hc|lia]|intros [_ Heq]; lia].
    + split; [intros Heq; lia|intros [Hc' _]; contradiction].
Qed.

(** X11. A run of the pipeline raises exactly when the generation
    service gives no plan and the fallback planner raises; it then carries
    the fallback's exception and has done nothing but log the planning
    phase and spend one generation call: no tool was called. *)
Theorem orchestrator_run_raises (task : string) (w : World) (e : string) :
  let out := AgentOrchestrator_run GITHUB WEATHER format_tool execute llm_plan
               llm_verify task w in
  (fst out = Raised e
   <-> llm_plan task (llm_calls w) = None
       /\ _create_fallback_plan GITHUB WEATHER task = Raised e)
  /\ (fst out = Raised e ->
      snd out = mkWorld (registry w) (tool_calls w) (S (llm_calls w))
                  (log w ++ [LogPlanning])).
Proof.
  cbv zeta.
  destruct (PlannerAgent_run GITHUB WEATHER llm_plan task
              (snd (emit LogPlanning w))) as [planned w1] eqn:Hplan.
  destruct (planner_run_frame task _ w1 planned Hplan) as [Hplanned Hw1].
  unfold emit in Hplanned, Hw1. cbn [snd registry tool_calls llm_calls log] in *.
  destruct planned as [plan|e'].
  - destruct (orchestrator_run_shape task plan w w1 Hplan)
      as (er & v & w4 & w' & Hrun & _).
    rewrite Hrun. cbn [fst snd]. split; [|discriminate].
    split; [discriminate|]. intros [Hnone Hraise].
    rewrite Hnone, Hraise in Hplanned. discriminate.
  - assert (Hrun : AgentOrchestrator_run GITHUB WEATHER format_tool execute
                     llm_plan llm_verify task w = (Raised e', w1)).
    { unfold AgentOrchestrator_run. unfold bind at 1.
      change (emit LogPlanning w) with (tt, snd (emit LogPlanning w)).
      cbv beta iota. unfold bind at 1. rewrite Hplan. reflexivity. }
    rewrite Hrun. cbn [fst snd]. split; [|intros _; exact Hw1].
    destruct (llm_plan task (llm_calls w)) as [plan|]; [discriminate|].
    split.
    + intros Heq. inversion Heq; subst e'. auto.
    + intros [_ Hraise]. congruence.
Qed.

(** X12. The response of a run whose planning returned a plan: it carries
    the task and the plan; its step list has the step numbers of the plan,
    position by position, and settled results; its [success] and
    [partial_success] agree with the step list, also after recovery; a
    successful response has only COMPLETED steps.  The run leaves the
    registry alone, makes at most six tool calls per step (three in the
    run, three in recovery), sleeps at most six seconds per step, and
    spends two or three generation calls. *)
Theorem pipeline_response_invariants (task : string) (plan : ExecutionPlan)
    (w w1 : World) :
  PlannerAgent_run GITHUB WEATHER llm_plan task (snd (emit LogPlanning w))
  = (Ok plan, w1) ->
  exists resp w',
    AgentOrchestrator_run GITHUB WEATHER format_tool execute llm_plan
      llm_verify task w = (Ok resp, w')
    /\ ar_task resp = task /\ ar_plan resp = plan
    /\ er_plan (execution resp) = plan
    /\ map sr_step_number (step_results (execution resp))
       = map step_number (steps plan)
    /\ Forall settled (step_results (execution resp))
    /\ (er_success (execution resp) = true
        <-> Forall (fun r => status r = COMPLETED)
              (step_results (execution resp)))
    /\ (partial_success (execution resp) = true
        <-> (0 < count_completed (step_results (execution resp)))%nat
            /\ er_success (execution resp) = false)
    /\ (ar_success resp = true ->
        Forall (fun r => status r = COMPLETED) (step_results (execution resp)))
    /\ registry w' = registry w
    /\ (tool_calls w <= tool_calls w'
        <= tool_calls w + 6 * length (steps plan))%nat
    /\ (slept (log w') <= slept (log w) + 6 * length (steps plan))%nat
    /\ (llm_calls w' = (llm_calls w + 2)%nat
        \/ llm_calls w' = (llm_calls w + 3)%nat).
Proof.
  intros Hplan.
  destruct (orchestrator_run_shape task plan w w1 Hplan)
    as (er & v & w4 & w' & Hrun & Hver & Hp & Hnums & Hset & Hsucc & Hpart
        & Hr4 & Hc4 & Hs4 & Hl4).
  destruct (planner_run_frame task _ w1 _ Hplan) as [_ Hw1].
  destruct (verifier_run_frame task er w4 w' v Hver)
    as (_ & Hr5 & Hc5 & Hl5 & Hs5).
  unfold emit in Hw1. cbn [snd registry tool_calls llm_calls log] in Hw1.
  subst w1. cbn [registry tool_calls llm_calls log] in *.
  rewrite slept_app in Hs4. cbn [slept fold_right] in Hs4.
  exists (mkAgentResponse task plan er v (is_valid v && er_success er)), w'.
  cbn [ar_task ar_plan execution ar_success].
  assert (Hiff : er_success er = true
                 <-> Forall (fun r => status r = COMPLETED) (step_results er)).
  { rewrite Hsucc, Nat.eqb_eq. apply all_completed. }
  split; [exact Hrun|]. split; [reflexivity|]. split; [reflexivity|].
  split; [exact Hp|]. split; [exact Hnums|]. split; [exact Hset|].
  split; [exact Hiff|].
  split; [rewrite Hpart, andb_true_iff, negb_true_iff, Nat.ltb_lt; reflexivity|].
  split; [intros Hok; apply andb_true_iff in Hok; apply Hiff, Hok|].
  split; [congruence|]. split; [lia|]. split; [lia|].
  destruct Hl4 as [Hl4|Hl4]; [left|right]; lia.
Qed.

(** X13. With the generation service unable to verify, the verification
    of the response is the fallback verification of its execution result,
    and the response is a success exactly when the plan has a step and all
    steps are COMPLETED.  For a plan without step the execution is reported
    as a success, yet the response is not one: the score is 0. *)
Theorem pipeline_with_fallback_verifier (task : string) (plan : ExecutionPlan)
    (w w1 : World) :
  PlannerAgent_run GITHUB WEATHER llm_plan task (snd (emit LogPlanning w))
  = (Ok plan, w1) ->
  (forall t er n, llm_verify t er n = None) ->
  exists resp w',
    AgentOrchestrator_run GITHUB WEATHER format_tool execute llm_plan
      llm_verify task w = (Ok resp, w')
    /\ verification resp
       = _create_fallback_verification task (execution resp)
    /\ (ar_success resp = true
        <-> steps plan <> []
            /\ Forall (fun r => status r = COMPLETED)
                 (step_results (execution resp)))
    /\ (steps plan = [] ->
        er_success (execution resp) = true
        /\ completeness_score (verification resp) = 0%Qc
        /\ ar_success resp = false).
Proof.
  intros Hplan Hdown.
  destruct (orchestrator_run_shape task plan w w1 Hplan)
    as (er & v & w4 & w' & Hrun & Hver & _ & Hnums & _ & Hsucc & _).
  destruct (verifier_run_frame task er w4 w' v Hver) as (Hv & _).
  rewrite Hdown in Hv.
  exists (mkAgentResponse task plan er v (is_valid v && er_success er)), w'.
  cbn [verification execution ar_success].
  assert (Hlen : length (step_results er) = length (steps plan)).
  { apply (f_equal (@length Z)) in Hnums. rewrite !length_map in Hnums.
    exact Hnums. }
  assert (Hiff : er_success er = true
                 <-> Forall (fun r => status r = COMPLETED) (step_results er)).
  { rewrite Hsucc, Nat.eqb_eq. apply all_completed. }
  assert (Hvalid : is_valid v = true
                   <-> (length (step_results er)
                        < 2 * count_completed (step_results er))%nat).
  { subst v. unfold _create_fallback_verification. cbn [is_valid].
    fold (count_completed (step_results er)).
    rewrite bool_decide_eq_true.
    destruct (step_results er) as [|r rs].
    - cbn. split; [intros Hlt; inversion Hlt|lia].
    - cbn [length Nat.ltb Nat.leb]. apply half_lt_true_div. lia. }
  split; [exact Hrun|]. split; [exact Hv|]. split.
  - rewrite andb_true_iff, Hvalid. split.
    + intros [Hlt Hok]. split; [|apply Hiff, Hok].
      intros Hnil. rewrite Hnil in Hlen. cbn in Hlen.
      pose proof (count_completed_le (step_results er)). lia.
    + intros [Hne Hall]. apply Hiff in Hall as Hok. split; [|exact Hok].
      rewrite Hsucc in Hok. apply Nat.eqb_eq in Hok. rewrite Hok.
      destruct (steps plan); [contradiction|]. cbn in Hlen. lia.
  - intros Hnil. rewrite Hnil in Hlen. cbn in Hlen.
    destruct (step_results er) as [|r rs] eqn:Hrs; [|discriminate].
    split; [rewrite Hsucc; reflexivity|].
    subst v. unfold _create_fallback_verification. rewrite Hrs.
    split; reflexivity.
Qed.

(** ** agents/orchestrator.py: the outer retry *)

Lemma keep_best_some (best : option (@AgentResponse ToolType Payload))
    (response : AgentResponse) :
  keep_best best response <> None.
Proof.
  unfold keep_best. destruct best; [destruct (bool_decide _)|]; discriminate.
Qed.

Lemma retry_attempts_returns_something (task : string) (max_attempts : Z)
    (idx : list Z) best (w : World) :
  best <> None \/ idx <> [] ->
  returned_nothing
    (fst (retry_attempts GITHUB WEATHER format_tool execute llm_plan llm_verify
            task max_attempts idx best w)) = false.
Proof.
  revert best w. induction idx as [|a idx IH]; intros best w Hsome.
  - destruct Hsome as [Hbest|Hidx]; [|contradiction].
    cbn. destruct best; [reflexivity|contradiction].
  - rewrite retry_attempts_cons. cbv zeta.
    destruct (AgentOrchestrator_run GITHUB WEATHER format_tool execute llm_plan
                llm_verify task
                (snd (emit (LogAttempt (a + 1) max_attempts) w)))
      as [[response|e] w1]; cbn [fst snd]; [|reflexivity].
    destruct (ar_success response); [reflexivity|].
    apply IH. left. apply keep_best_some.
Qed.

(** X14. [run_with_retry] returns [None] exactly when the range of
    attempts is empty, that is for [max_attempts <= 0]; with at least one
    attempt it returns a response or raises. *)
Theorem run_with_retry_returns_nothing (task : string) (max_attempts : Z)
    (w : World) :
  returned_nothing
    (fst (run_with_retry GITHUB WEATHER format_tool execute llm_plan llm_verify
            task max_attempts w)) = true
  <-> max_attempts <= 0.
Proof.
  unfold run_with_retry. destruct (decide (max_attempts <= 0)) as [Hle|Hgt].
  - split; [intros _; exact Hle|intros _].
    replace (seqZ 0 max_attempts) with (@nil Z); [reflexivity|].
    unfold seqZ. replace (Z.to_nat max_attempts) with 0%nat by lia. reflexivity.
  - split; [|intros Hle; contradiction]. intros Hnone. exfalso.
    rewrite retry_attempts_returns_something in Hnone; [discriminate|].
    right. intros Hnil. apply (f_equal (@length Z)) in Hnil.
    rewrite length_seqZ in Hnil. cbn in Hnil. lia.
Qed.

(** X15. When an attempt of [run_with_retry] raises after attempts that
    returned without success, the call raises with that exception, in the
    world the raising attempt leaves: the responses kept so far are lost and
    no further attempt is made. *)
Theorem run_with_retry_propagates (task : string) (max_attempts : Z)
    (w : World) (rs : list AgentResponse) (e : string) (wk : World) :
  let tries := attempts_of GITHUB WEATHER format_tool execute llm_plan
                 llm_verify task max_attempts (seqZ 0 max_attempts) w in
  tries !! length rs = Some (Raised e, wk) ->
  map fst (take (length rs) tries) = map Ok rs ->
  Forall (fun r => ar_success r = false) rs ->
  run_with_retry GITHUB WEATHER format_tool execute llm_plan llm_verify
    task max_attempts w = (Raised e, wk).
Proof.
  cbv zeta. unfold run_with_retry.
  generalize (seqZ 0 max_attempts) (@None (@AgentResponse ToolType Payload)).
  intros idx. revert w rs.
  induction idx as [|a idx IH]; intros w rs best Hk Hpre Hfail.
  - cbn in Hk. rewrite lookup_nil in Hk. discriminate.
  - rewrite retry_attempts_cons. cbv zeta. cbn [attempts_of] in Hk, Hpre.
    set (rw := AgentOrchestrator_run GITHUB WEATHER format_tool execute
                 llm_plan llm_verify task
                 (snd (emit (LogAttempt (a + 1) max_attempts) w))) in *.
    destruct rs as [|r rs].
    + assert (Hrw : rw = (Raised e, wk)) by (apply (inj Some); exact Hk).
      rewrite Hrw. reflexivity.
    + cbn [length take map] in Hpre.
      assert (Hr : fst rw = Ok r) by (apply (f_equal head) in Hpre;
        apply (inj Some); exact Hpre).
      assert (Hrest : map fst (take (length rs)
                (attempts_of GITHUB WEATHER format_tool execute llm_plan
                   llm_verify task max_attempts idx (snd rw))) = map Ok rs)
        by (apply (f_equal tail) in Hpre; exact Hpre).
      rewrite Hr. inversion Hfail as [|? ? Hf Hfail']; subst. rewrite Hf.
      apply (IH _ rs); assumption.
Qed.

(** A registered tool whose first call succeeds. *)
Lemma execute_step_succeeds_after_first (step : PlanStep) (self : BaseTool)
    (r : ToolResult) (w : World) :
  registry w !! tool step = Some self ->
  execute self (parameters step) (tool_calls w) = Returns r ->
  tr_success r = true ->
  _execute_step format_tool execute step w
  = (mkStepResult (step_number step) COMPLETED (Some r) 0 None,
     mkWorld (registry w) (S (tool_calls w)) (llm_calls w)
       ((log w ++ [LogExecuting (step_number step)])
        ++ [ToolCall (tool_type self) (parameters step)])).
Proof.
  intros Hreg Hcall Hok.
  rewrite (execute_step_registered step self w Hreg).
  unfold max_retries. cbn [retry_loop].
  unfold bind, safe_execute, bind, emit, next_tool_call.
  cbn [fst snd registry tool_calls llm_calls log].
  rewrite Hcall. unfold ret. rewrite Hok. reflexivity.
Qed.

(** ** agents/executor.py: the direct call of a tool *)

(** X16. [execute_single_tool] makes one call at most and never waits nor
    retries.  For a tool the registry does not hold it answers a failed
    outcome "Tool not found" without any effect.  When it returns a
    successful outcome, [_execute_step] on a step with that tool and those
    parameters, from the same world, completes at its first attempt with
    the same outcome and as many tool calls. *)
Theorem execute_single_tool_spec (t : ToolType) (params : gmap string Value)
    (w : World) :
  let out := execute_single_tool format_tool execute t params w in
  (registry w !! t = None ->
   out = (Ok (mkToolResult t false None
                (Some ("Tool not found: " +:+ format_tool t))), w))
  /\ registry (snd out) = registry w
  /\ llm_calls (snd out) = llm_calls w
  /\ (tool_calls w <= tool_calls (snd out) <= S (tool_calls w))%nat
  /\ slept (log (snd out)) = slept (log w)
  /\ (forall (step : PlanStep) (r : ToolResult) (w1 : World),
        tool step = t -> parameters step = params ->
        out = (Ok r, w1) -> tr_success r = true ->
        exists w2,
          _execute_step format_tool execute step w
          = (mkStepResult (step_number step) COMPLETED (Some r) 0 None, w2)
          /\ tool_calls w2 = tool_calls w1).
Proof.
  cbv zeta. unfold execute_single_tool, ToolRegistry_get, bind.
  cbn [fst snd]. destruct (registry w !! t) as [self|] eqn:Hreg.
  - split; [discriminate|].
    unfold safe_execute, bind, emit, next_tool_call.
    cbn [fst snd registry tool_calls llm_calls log].
    destruct (execute self params (tool_calls w)) as [r0|msg|msg] eqn:Hcall;
      unfold ret; cbn [fst snd registry tool_calls llm_calls log];
      rewrite slept_app; cbn [slept fold_right];
      (split; [reflexivity|]); (split; [reflexivity|]);
      (split; [lia|]); (split; [lia|]);
      intros step r w1 Htool Hparams Hout Hok; inversion Hout; subst r w1.
    + subst t params.
      eexists. split.
      * apply (execute_step_succeeds_after_first step self r0); assumption.
      * reflexivity.
    + cbn in Hok. discriminate.
  - split; [reflexivity|]. unfold ret. cbn [snd].
    split; [reflexivity|]. split; [reflexivity|]. split; [lia|].
    split; [reflexivity|].
    intros step r w1 _ _ Hout Hok. inversion Hout; subst r. discriminate.
Qed.

(** ** agents/planner.py: the fallback planner *)












Lemma str_take_length (n : nat) (s : string) :
  String.length (str_take n s) = Nat.min n (String.length s).
Proof.
  unfold str_take. revert s. induction n as [|n IH]; intros s.
  - destruct s; reflexivity.
  - destruct s as [|c s]; [reflexivity|].
    cbn [String.substring String.length Nat.min]. rewrite IH. reflexivity.
Qed.

Lemma str_take_prefix (n : nat) (s : string) :
  String.prefix (str_take n s) s = true.
Proof.
  unfold str_take. revert s. induction n as [|n IH]; intros s.
  - destruct s; reflexivity.
  - destruct s as [|c s]; [reflexivity|].
    cbn [String.substring String.prefix].
    destruct (ascii_dec c c) as [_|Hne]; [apply IH|contradiction].
Qed.

(** X18. A plan of the fallback planner has one or two steps, numbered
    from 1 in order: a repository search when the lowered task holds a
    repository keyword, then a weather lookup when it holds a weather
    keyword, and the default repository search when it holds neither.  The
    step numbers differ, and the summary is the task cut at 200
    characters. *)
Theorem fallback_plan_skeleton (task : string) (plan : @ExecutionPlan ToolType) :
  _create_fallback_plan GITHUB WEATHER task = Ok plan ->
  let g := any_in github_keywords (lower task) in
  let wk := any_in weather_keywords (lower task) in
  map (fun s => (step_number s, tool s)) (steps plan)
  = (if g then [(1, GITHUB)] else [])
    ++ (if wk then [(if g then 2 else 1, WEATHER)] else [])
    ++ (if g || wk then [] else [(1, GITHUB)])
  /\ NoDup (map step_number (steps plan))
  /\ (1 <= length (steps plan) <= 2)%nat
  /\ String.prefix (task_summary plan) task = true
  /\ String.length (task_summary plan) = Nat.min 200 (String.length task).
Proof.
  unfold _create_fallback_plan. cbv zeta.
  destruct (any_in github_keywords (lower task));
    destruct (any_in weather_keywords (lower task));
    try destruct (_extract_city task) as [city|e];
    cbn [app]; intros Hplan; inversion Hplan; subst plan;
    cbn [steps task_summary map app orb length step_number tool];
    (split; [reflexivity|]);
    (split; [|split; [lia|split; [apply str_take_prefix|apply str_take_length]]]);
    repeat (apply NoDup_cons; split;
            [rewrite ?list_elem_of_singleton, ?elem_of_nil; try discriminate;
             intros []|]);
    apply NoDup_nil; exact I.
Qed.



(** ** Planner, registry and runner together *)

Lemma constructed_registry_lookup (w0 : World) (t : ToolType) :
  t = GITHUB \/ t = WEATHER ->
  is_Some (registry (snd (AgentOrchestrator_init GITHUB WEATHER w0)) !! t).
Proof.
  intros Ht.
  change (registry (snd (AgentOrchestrator_init GITHUB WEATHER w0)))
    with (<[WEATHER := WeatherTool WEATHER]>
            (<[GITHUB := GitHubTool GITHUB]> (∅ : gmap ToolType BaseTool))).
  rewrite !lookup_insert_is_Some.
  destruct (decide (WEATHER = t)) as [Heq|Hne]; [left; exact Heq|].
  right. split; [exact Hne|]. left. destruct Ht as [Ht|Ht]; congruence.
Qed.

Lemma fallback_plan_steps (task : string) (plan : @ExecutionPlan ToolType) :
  _create_fallback_plan GITHUB WEATHER task = Ok plan ->
  Forall (fun s => depends_on s = [] /\ (tool s = GITHUB \/ tool s = WEATHER))
    (steps plan).
Proof.
  unfold _create_fallback_plan. cbv zeta.
  destruct (any_in github_keywords (lower task));
    destruct (any_in weather_keywords (lower task));
    try destruct (_extract_city task) as [city|e];
    cbn [app]; intros Hplan; inversion Hplan; subst plan; cbn [steps];
    repeat (constructor; [cbn; auto|]); constructor.
Qed.

(** The loop on steps without dependencies whose tools are registered:
    every step is really tried. *)
Lemma run_loop_tried (todo : list PlanStep) rs cs (w : World) :
  Forall (fun s => depends_on s = [] /\ is_Some (registry w !! tool s)) todo ->
  exists new,
    fst (fst (run_loop format_tool execute todo rs cs w)) = rs ++ new
    /\ Forall (fun r => status r = COMPLETED
                        \/ (status r = FAILED /\ retry_count r = max_retries))
         new.
Proof.
  revert rs cs w. induction todo as [|step todo IH]; intros rs cs w Hall.
  - exists []. cbn. rewrite app_nil_r. split; [reflexivity|constructor].
  - inversion Hall as [|? ? [Hdeps [self Hreg]] Hrest]; subst.
    cbn [run_loop]. rewrite Hdeps. cbn [_dependencies_met forallb negb].
    unfold bind at 1.
    pose proof (bounded_execute_step step w) as Hb. cbv zeta in Hb.
    destruct (_execute_step format_tool execute step w) as [r w1] eqn:Hstep.
    cbn [snd] in Hb. destruct Hb as (Hr1 & _).
    rewrite (execute_step_registered step self w Hreg) in Hstep.
    apply retry_loop_result in Hstep. destruct Hstep as [_ Hr].
    destruct (IH (rs ++ [r]) (<[step_number step := r]> cs) w1)
      as (new & Hnew & Hnewall).
    { eapply Forall_impl; [exact Hrest|]. intros s. rewrite Hr1. auto. }
    exists (r :: new). split; [rewrite Hnew, <- app_assoc; reflexivity|].
    constructor; [|exact Hnewall].
    destruct Hr as [Hc|(Hf & _ & Hn)]; [left; exact Hc|right].
    split; [exact Hf|]. rewrite Hn. reflexivity.
Qed.

(** X20. A plan of the fallback planner, run with the registry an
    orchestrator constructs: no step fails for its dependencies or for a
    missing tool; every step is COMPLETED, or FAILED after the three
    attempts of the retry budget. *)
Theorem fallback_plan_steps_are_tried (task : string)
    (plan : ExecutionPlan) (w0 w : World) :
  _create_fallback_plan GITHUB WEATHER task = Ok plan ->
  registry w = registry (snd (AgentOrchestrator_init GITHUB WEATHER w0)) ->
  Forall (fun r => status r = COMPLETED
                   \/ (status r = FAILED /\ retry_count r = 3%nat))
    (step_results (fst (ExecutorAgent_run format_tool execute plan w))).
Proof.
  intros Hplan Hreg. unfold ExecutorAgent_run, bind.
  destruct (run_loop_tried (steps plan) [] ∅ w) as (new & Hnew & Hall).
  { eapply Forall_impl; [apply (fallback_plan_steps task plan Hplan)|].
    intros s [Hdeps Htool]. split; [exact Hdeps|].
    rewrite Hreg. apply constructed_registry_lookup. exact Htool. }
  destruct (run_loop format_tool execute (steps plan) [] ∅ w) as [acc w1].
  unfold ret. cbn [fst snd step_results app] in *. rewrite Hnew. exact Hall.
Qed.

(** ** The pipeline when every tool answers *)

Lemma run_loop_all_succeed (todo : list PlanStep) (seen : list Z) rs cs
    (w : World) :
  (forall self params n,
     exists r, execute self params n = Returns r /\ tr_success r = true) ->
  ordered_from seen todo ->
  (forall n, n ∈ seen -> exists r, cs !! n = Some r /\ status r = COMPLETED) ->
  Forall (fun s => is_Some (registry w !! tool s)) todo ->
  exists new cs' w',
    run_loop format_tool execute todo rs cs w = ((rs ++ new, cs'), w')
    /\ Forall (fun r => status r = COMPLETED /\ retry_count r = 0%nat) new
    /\ length new = length todo
    /\ registry w' = registry w
    /\ tool_calls w' = (tool_calls w + length todo)%nat
    /\ llm_calls w' = llm_calls w
    /\ slept (log w') = slept (log w).
Proof.
  intros Hanswer. revert seen rs cs w.
  induction todo as [|step todo IH]; intros seen rs cs w Hord Hseen Hreg.
  - exists [], cs, w. cbn. rewrite app_nil_r. unfold ret.
    split; [reflexivity|]. split; [constructor|].
    split; [reflexivity|]. split; [reflexivity|]. split; [lia|].
    split; reflexivity.
  - destruct Hord as [Hdeps Hord].
    inversion Hreg as [|? ? [self Hself] Hrest]; subst.
    assert (Hmet : _dependencies_met (depends_on step) cs = true).
    { apply dependencies_met_true. eapply Forall_impl; [exact Hdeps|].
      intros dep Hin. apply Hseen. exact Hin. }
    destruct (Hanswer self (parameters step) (tool_calls w)) as (r & Hcall & Hok).
    cbn [run_loop]. rewrite Hmet. cbn [negb]. unfold bind at 1.
    rewrite (execute_step_succeeds_after_first step self r w Hself Hcall Hok).
    set (w1 := mkWorld _ _ _ _).
    set (res := mkStepResult _ _ _ _ _).
    destruct (IH (step_number step :: seen) (rs ++ [res])
                (<[step_number step := res]> cs) w1 Hord)
      as (new & cs' & w' & Hrun & Hall & Hlen & Hr & Hc & Hl & Hs).
    { intros n Hin. destruct (decide (n = step_number step)) as [->|Hne].
      - exists res. rewrite lookup_insert_eq. split; reflexivity.
      - rewrite lookup_insert_ne by congruence. apply Hseen.
        apply elem_of_cons in Hin. destruct Hin as [Hin|Hin];
          [contradiction|exact Hin]. }
    { exact Hrest. }
    exists (res :: new), cs', w'.
    split; [rewrite Hrun, <- app_assoc; reflexivity|].
    split; [constructor; [split; reflexivity|exact Hall]|].
    split; [cbn [length]; rewrite Hlen; reflexivity|].
    split; [exact Hr|].
    split; [rewrite Hc; subst w1; cbn [tool_calls length]; lia|].
    split; [exact Hl|].
    rewrite Hs. subst w1. cbn [log]. rewrite !slept_app. cbn. lia.
Qed.

(** X21. A run in which every tool call answers with a success, on a plan
    whose tools are registered and whose steps depend on earlier steps only:
    every step is COMPLETED at its first attempt, with one tool call per
    step and no waiting; the recovery phase is not entered and the
    verification is made once, whatever the verifier says; the response is
    a success exactly when the verification is valid, and it is one, with
    score 1 and no issue, when the plan has a step and the verification is
    the fallback's. *)
Theorem pipeline_all_tools_answer (task : string) (plan : ExecutionPlan)
    (w w1 : World) :
  PlannerAgent_run GITHUB WEATHER llm_plan task (snd (emit LogPlanning w))
  = (Ok plan, w1) ->
  (forall self params n,
     exists r, execute self params n = Returns r /\ tr_success r = true) ->
  ordered_from [] (steps plan) ->
  Forall (fun s => is_Some (registry w !! tool s)) (steps plan) ->
  exists resp w',
    AgentOrchestrator_run GITHUB WEATHER format_tool execute llm_plan
      llm_verify task w = (Ok resp, w')
    /\ ar_plan resp = plan
    /\ map sr_step_number (step_results (execution resp))
       = map step_number (steps plan)
    /\ Forall (fun r => status r = COMPLETED /\ retry_count r = 0%nat)
         (step_results (execution resp))
    /\ er_success (execution resp) = true
    /\ ar_success resp = is_valid (verification resp)
    /\ tool_calls w' = (tool_calls w + length (steps plan))%nat
    /\ llm_calls w' = (llm_calls w + 2)%nat
    /\ slept (log w') = slept (log w)
    /\ phase4_count (log w') = phase4_count (log w)
    /\ (llm_verify task (execution resp) (S (llm_calls w)) = None ->
        steps plan <> [] ->
        ar_success resp = true
        /\ completeness_score (verification resp) = 1%Qc
        /\ issues (verification resp) = []).
Proof.
  intros Hplan Hanswer Hord Hreg.
  destruct (planner_run_frame task _ w1 _ Hplan) as [_ Hw1].
  unfold emit in Hw1. cbn [snd registry tool_calls llm_calls log] in Hw1.
  assert (Hreg1 : Forall (fun s => is_Some (registry w1 !! tool s)) (steps plan))
    by (subst w1; exact Hreg).
  destruct (run_loop_all_succeed (steps plan) [] [] ∅ w1 Hanswer Hord)
    as (new & cs' & w2 & Hloop & Hall & Hlen & Hr2 & Hc2 & Hl2 & Hs2);
    [intros n Hin; apply elem_of_nil in Hin; contradiction|exact Hreg1|].
  cbn [app] in Hloop.
  destruct (executor_run_facts plan w1) as (rs & w2' & Hrun & Hnums & _).
  assert (Hsame : rs = new /\ w2' = w2).
  { revert Hrun. unfold ExecutorAgent_run, bind. rewrite Hloop. unfold ret.
    cbn [fst]. intros Heq. inversion Heq. split; reflexivity. }
  destruct Hsame as [-> ->].
  assert (Hcount : count_completed new = length new).
  { apply all_completed. eapply Forall_impl; [exact Hall|].
    intros r [Hc _]. exact Hc. }
  rewrite Hcount, Nat.eqb_refl in Hrun. cbn [negb andb] in Hrun.
  rewrite andb_false_r in Hrun.
  set (er := mkExecutionResult plan new true false) in *.
  destruct (VerifierAgent_run llm_verify task er w2) as [v w3] eqn:Hver.
  destruct (verifier_run_frame task er w2 w3 v Hver)
    as (Hv & Hr3 & Hc3 & Hl3 & Hs3).
  pose proof (keeps_executor_run plan w1) as Hk2. rewrite Hrun in Hk2.
  pose proof (keeps_verifier_run task er w2) as Hk3. rewrite Hver in Hk3.
  cbn [snd] in Hk2, Hk3.
  exists (mkAgentResponse task plan er v (is_valid v && er_success er)), w3.
  split.
  { unfold AgentOrchestrator_run, _execute_with_callbacks, bind.
    change (emit LogPlanning w) with (tt, snd (emit LogPlanning w)).
    cbv beta iota. rewrite Hplan. cbv beta iota. rewrite Hrun. cbv beta iota.
    rewrite Hver. reflexivity. }
  cbn [ar_plan execution verification ar_success er_success step_results er].
  split; [reflexivity|]. split; [exact Hnums|]. split; [exact Hall|].
  split; [reflexivity|]. split; [apply andb_true_r|].
  split; [rewrite Hc3, Hc2; subst w1; reflexivity|].
  split; [rewrite Hl3, Hl2; subst w1; cbn [llm_calls]; lia|].
  split.
  { rewrite Hs3, Hs2. subst w1. cbn [log]. rewrite slept_app. cbn. lia. }
  split.
  { rewrite Hk3, Hk2. subst w1. cbn [log]. rewrite phase4_count_snoc.
    lia. }
  intros Hnone Hne.
  assert (Hlw : llm_calls w2 = S (llm_calls w))
    by (rewrite Hl2; subst w1; reflexivity).
  rewrite Hlw, Hnone in Hv.
  assert (Hpos : (0 < length new)%nat).
  { rewrite Hlen. destruct (steps plan); [contradiction|cbn; lia]. }
  assert (Hscore : completeness_score v = 1%Qc).
  { subst v. unfold _create_fallback_verification.
    cbn [completeness_score step_results er].
    fold (count_completed new). rewrite Hcount.
    destruct (0 <? length new)%nat eqn:Hlt; [apply true_div_same; exact Hpos|].
    apply Nat.ltb_ge in Hlt. lia. }
  split; [|split; [exact Hscore|]].
  - rewrite andb_true_r. subst v. unfold _create_fallback_verification in *.
    cbn [is_valid completeness_score] in *. rewrite Hscore.
    vm_compute. reflexivity.
  - subst v. unfold _create_fallback_verification. cbn [issues step_results er].
    replace (filter (fun r => status r = FAILED) new)
      with (@nil (@StepResult ToolType Payload)); [reflexivity|].
    symmetry. clear -Hall. induction Hall as [|r rs [Hc _] _ IH]; [reflexivity|].
    rewrite filter_cons_False by (rewrite Hc; discriminate). exact IH.
Qed.

End Properties.

(** ** The theorems on the sample inputs *)

(** C2 on the sample: the rate-limited search fails after three calls. *)
Lemma execute_step_exhausts_retries_sample :
  fst (_execute_step sample_format always_failing search_step ready_world)
  = mkStepResult 1 FAILED None 3 (Some rate_limited).
Proof.
  pose proof (execute_step_exhausts_retries sample_format always_failing
                search_step (GitHubTool ST_GITHUB) ready_world
                eq_refl (fun n => eq_refl)) as Hw.
  cbv zeta in Hw. destruct Hw as (_ & Hres & _). exact Hres.
Defined.

(** C7 on the sample: the weather step, whose dependency failed, is
    FAILED with "Dependencies not met". *)
Lemma unmet_dependencies_fail_step_sample :
  step_results (fst (ExecutorAgent_run sample_format github_down
                       chained_plan ready_world)) !! 1%nat
  = Some (mkStepResult 2 FAILED None 0 (Some "Dependencies not met")).
Proof.
  refine (proj1 (unmet_dependencies_fail_step sample_format github_down
                   chained_plan [search_step] [] weather_step ready_world
                   eq_refl _)).
  apply Exists_cons_hd. vm_compute. discriminate.
Defined.

(** C8 on the sample: the map tool is not registered. *)
Lemma unregistered_tool_fails_both_steps_sample :
  map error_message
    (step_results (fst (ExecutorAgent_run sample_format always_failing
                          unregistered_plan ready_world)))
  = [Some "Tool not found: maps"; Some "Dependencies not met"].
Proof.
  rewrite (unregistered_tool_fails_both_steps sample_format always_failing
             unregistered_plan maps_step weather_step ready_world
             eq_refl eq_refl ltac:(constructor) eq_refl).
  reflexivity.
Defined.

(** C4 on the sample: the search fails, the verification scores 0, the
    recovery phase is entered once. *)
Lemma recovery_gate_sample :
  phase4_count
    (log (snd (AgentOrchestrator_run ST_GITHUB ST_WEATHER sample_format
                 github_down plans_chained no_verdict "repos" ready_world)))
  = 1%nat.
Proof.
  destruct (recovery_gate ST_GITHUB ST_WEATHER sample_format github_down
              plans_chained no_verdict "repos" chained_plan ready_world _
              eq_refl) as (resp & w' & Hrun & _ & Hentered & _).
  rewrite Hrun. cbn [snd]. rewrite Hentered; [reflexivity|].
  split; vm_compute; reflexivity.
Defined.

(** C1 on the sample: after recovery the step list is the one replaced by
    position. *)
Lemma recovery_reexecutes_in_place_sample :
  let ran := ExecutorAgent_run sample_format github_down chained_plan
               ready_world in
  let v := _create_fallback_verification "repos" (fst ran) in
  step_results
    (fst (fst (_retry_failed_steps sample_format github_down no_verdict
                 "repos" chained_plan (fst ran) v (snd ran))))
  = fst (recover_in_place sample_format github_down
           (zip (steps chained_plan) (step_results (fst ran))) (snd ran)).
Proof.
  cbv zeta.
  refine (proj1 (recovery_reexecutes_in_place sample_format github_down
                   no_verdict "repos" chained_plan _ _ _ _ _)).
  - vm_compute. repeat constructor.
  - refine (bool_decide_unpack _ _). vm_compute. exact I.
Defined.

(** C1 as stated fails on the sample.  The search step fails and the
    weather step, which depends on it, fails with "Dependencies not met";
    the dependency is still unmet in the snapshot of the run.  Recovery by
    the code calls the weather tool and the step is COMPLETED; evaluated
    against the snapshot it would have been FAILED again. *)
Lemma recovery_ignores_snapshot_sample :
  let ran := ExecutorAgent_run sample_format github_down chained_plan
               ready_world in
  let er := fst ran in
  let v := _create_fallback_verification "repos" er in
  let snapshot :=
    snd (fst (run_loop sample_format github_down (steps chained_plan) [] ∅
                ready_world)) in
  map error_message (step_results er)
  = [Some rate_limited; Some "Dependencies not met"]
  /\ _dependencies_met (depends_on weather_step) snapshot = false
  /\ map status
       (step_results
          (fst (fst (_retry_failed_steps sample_format github_down no_verdict
                       "repos" chained_plan er v (snd ran)))))
     = [FAILED; COMPLETED]
  /\ map status
       (fst (recover_against_snapshot sample_format github_down snapshot
               (zip (steps chained_plan) (step_results er)) (snd ran)))
     = [FAILED; FAILED].
Proof. vm_compute. repeat split. Qed.

(** C6 on the sample: both steps of the chained plan are resolved. *)
Lemma executor_run_resolves_every_step_sample :
  let rs := step_results (fst (ExecutorAgent_run sample_format github_down
                                 chained_plan ready_world)) in
  (count_completed rs + count_failed rs)%nat = 2%nat.
Proof.
  cbv zeta.
  destruct (executor_run_resolves_every_step sample_format github_down
              chained_plan ready_world) as (_ & _ & Hsum & _).
  exact Hsum.
Defined.

(** C5 on the sample: three COMPLETED results out of four. *)
Lemma fallback_verification_spec_sample :
  completeness_score (_create_fallback_verification "task" three_of_four)
  = Q2Qc (3 # 4)
  /\ is_valid (_create_fallback_verification "task" three_of_four) = true.
Proof.
  destruct (fallback_verification_spec "task" three_of_four)
    as (_ & _ & _ & _ & _ & _ & _ & Hexample).
  exact (Hexample eq_refl eq_refl).
Defined.

(** C9 on the sample: a task without keyword. *)
Lemma fallback_plan_spec_sample :
  _create_fallback_plan ST_GITHUB ST_WEATHER "hello there"
  = Ok (mkExecutionPlan "hello there"
          [mkPlanStep 1 "Search GitHub for relevant repositories" ST_GITHUB
             (<["query" := VStr "hello there"]> (<["limit" := VInt 5]> ∅)) []]
          "Fallback plan generated from keyword extraction").
Proof.
  exact (proj2 (fallback_plan_spec ST_GITHUB ST_WEATHER "hello there")
           eq_refl eq_refl).
Defined.

(** C10 on the sample: with the constructed registry, a step on the map
    tool is answered "Tool not found". *)
Lemma registry_after_construction_sample :
  fst (_execute_step sample_format always_failing maps_step ready_world)
  = mkStepResult 1 FAILED None 0 (Some "Tool not found: maps").
Proof.
  destruct (registry_after_construction ST_GITHUB ST_WEATHER sample_format
              always_failing sample_world) as (_ & _ & Hsteps).
  destruct (Hsteps maps_step ready_world eq_refl) as [Hother _].
  apply Hother. split; discriminate.
Defined.

(** C3 on the sample: the first attempt fails, the second succeeds and is
    the one returned, in the world it leaves. *)
Lemma run_with_retry_spec_sample :
  run_with_retry ST_GITHUB ST_WEATHER sample_format recovering plans_search
    no_verdict "repos" 2 ready_world
  = (Ok (Some (response_of (fst second_try))), snd second_try).
Proof.
  destruct (run_with_retry_spec ST_GITHUB ST_WEATHER sample_format recovering
              plans_search no_verdict "repos" 2 ready_world)
    as (_ & Hshort & _).
  apply (Hshort [response_of (fst first_try)]).
  - vm_compute. reflexivity.
  - vm_compute. reflexivity.
  - constructor; [|constructor]. vm_compute. reflexivity.
  - vm_compute. reflexivity.
Defined.

(** ** The further properties on the sample inputs *)

(** Two failed calls, then an answer: COMPLETED with [retry_count] 2
    after a wait of 1 + 2 seconds. *)
Lemma execute_step_succeeds_after_sample :
  let out := _execute_step sample_format answers_third search_step
               ready_world in
  fst out = mkStepResult 1 COMPLETED (Some (payload_result ST_GITHUB)) 2 None
  /\ tool_calls (snd out) = 3%nat
  /\ slept (log (snd out)) = 3%nat.
Proof.
  cbv zeta.
  rewrite (execute_step_succeeds_after sample_format answers_third search_step
             (GitHubTool ST_GITHUB) (payload_result ST_GITHUB) 2 ready_world).
  - repeat split.
  - vm_compute. reflexivity.
  - unfold max_retries. lia.
  - intros [|[|i]] Hi; [reflexivity|reflexivity|lia].
  - reflexivity.
  - reflexivity.
Defined.

(** Calls that raise before [execute] is entered: three calls, no wait. *)
Lemma execute_step_escaping_calls_sample :
  let out := _execute_step sample_format crashing search_step ready_world in
  fst out
  = mkStepResult 1 FAILED None 3
      (Some "safe_execute() got multiple values for argument 'self'")
  /\ tool_calls (snd out) = 3%nat
  /\ slept (log (snd out)) = 0%nat.
Proof.
  cbv zeta.
  rewrite (execute_step_escaping_calls sample_format crashing search_step
             (GitHubTool ST_GITHUB) ready_world _ _ _
             ltac:(vm_compute; reflexivity) eq_refl eq_refl eq_refl).
  repeat split.
Defined.

(** The weather step of [chained_plan] is executed once the search it
    depends on is COMPLETED. *)
Lemma dependency_check_reads_latest_sample :
  step_results (fst (ExecutorAgent_run sample_format always_answering
                       chained_plan ready_world)) !! 1%nat
  = Some (mkStepResult 2 COMPLETED (Some (payload_result ST_WEATHER)) 0 None).
Proof.
  pose proof (proj1 (dependency_check_reads_latest sample_format
                       always_answering chained_plan [search_step] []
                       weather_step ready_world eq_refl)) as Hmet.
  cbv zeta in Hmet. cbn [length] in Hmet. rewrite Hmet.
  - vm_compute. reflexivity.
  - constructor; [|constructor].
    exists (mkStepResult 1 COMPLETED (Some (payload_result ST_GITHUB)) 0 None).
    split; [vm_compute; reflexivity|reflexivity].
Defined.

(** Recovery of [half_done]: the COMPLETED search stays as it is. *)
Lemma recovery_never_loses_a_step_sample :
  step_results
    (fst (fst (_retry_failed_steps sample_format always_failing no_verdict
                 "repos" chained_plan half_done
                 (_create_fallback_verification "repos" half_done)
                 ready_world))) !! 0%nat
  = Some (mkStepResult 1 COMPLETED (Some (payload_result ST_GITHUB)) 0 None).
Proof.
  refine (proj1 (recovery_never_loses_a_step sample_format always_failing
                   no_verdict "repos" chained_plan half_done _ ready_world
                   _ _) 0%nat _ eq_refl _).
  - repeat constructor.
  - refine (bool_decide_unpack _ _). vm_compute. exact I.
  - discriminate.
Defined.

(** A run on [search_plan]: the step list carries the number of its step
    and the registry is left alone. *)
Lemma pipeline_response_invariants_sample :
  exists resp w',
    AgentOrchestrator_run ST_GITHUB ST_WEATHER sample_format recovering
      plans_search no_verdict "repos" ready_world = (Ok resp, w')
    /\ map sr_step_number (step_results (execution resp)) = [1]
    /\ registry w' = registry ready_world.
Proof.
  destruct (pipeline_response_invariants ST_GITHUB ST_WEATHER sample_format
              recovering plans_search no_verdict "repos" search_plan
              ready_world _ eq_refl)
    as (resp & w' & Hrun & _ & _ & _ & Hnums & _ & _ & _ & _ & Hreg & _).
  exists resp, w'. split; [exact Hrun|]. split; [exact Hnums|exact Hreg].
Defined.

(** The same run: its verification is the fallback's. *)
Lemma pipeline_with_fallback_verifier_sample :
  exists resp w',
    AgentOrchestrator_run ST_GITHUB ST_WEATHER sample_format recovering
      plans_search no_verdict "repos" ready_world = (Ok resp, w')
    /\ verification resp
       = _create_fallback_verification "repos" (execution resp).
Proof.
  destruct (pipeline_with_fallback_verifier ST_GITHUB ST_WEATHER sample_format
              recovering plans_search no_verdict "repos" search_plan
              ready_world _ eq_refl (fun _ _ _ => eq_refl))
    as (resp & w' & Hrun & Hver & _).
  exists resp, w'. split; [exact Hrun|exact Hver].
Defined.

(** The second attempt raises: [run_with_retry] raises and the response
    of the first attempt is lost. *)
Lemma run_with_retry_propagates_sample :
  run_with_retry ST_GITHUB ST_WEATHER sample_format always_failing plans_once
    no_verdict "weather in ..." 3 ready_world
  = (Raised "string index out of range", snd raising_try).
Proof.
  apply (run_with_retry_propagates ST_GITHUB ST_WEATHER sample_format
           always_failing plans_once no_verdict "weather in ..." 3
           ready_world [response_of (fst failed_try)]).
  - vm_compute. reflexivity.
  - vm_compute. reflexivity.
  - constructor; [|constructor]. vm_compute. reflexivity.
Defined.

(** The fallback plan of a task with both kinds of keyword. *)
Lemma fallback_plan_skeleton_sample :
  map (fun s => (step_number s, tool s)) (steps both_plan)
  = [(1, ST_GITHUB); (2, ST_WEATHER)]
  /\ String.length (task_summary both_plan) = 39%nat.
Proof.
  destruct (fallback_plan_skeleton ST_GITHUB ST_WEATHER
              "Find Python repos and weather in London" both_plan
              ltac:(vm_compute; reflexivity))
    as (Hsteps & _ & _ & _ & Hlen).
  split; [exact Hsteps|exact Hlen].
Defined.


(** The fallback plan run while the repository search is rate limited:
    both steps are tried. *)
Lemma fallback_plan_steps_are_tried_sample :
  Forall (fun r => status r = COMPLETED
                   \/ (status r = FAILED /\ retry_count r = 3%nat))
    (step_results (fst (ExecutorAgent_run sample_format github_down both_plan
                          ready_world))).
Proof.
  exact (fallback_plan_steps_are_tried ST_GITHUB ST_WEATHER sample_format
           github_down "Find Python repos and weather in London" both_plan
           sample_world ready_world ltac:(vm_compute; reflexivity) eq_refl).
Defined.

(** Every tool answers on [chained_plan]: a success after two calls. *)
Lemma pipeline_all_tools_answer_sample :
  exists resp w',
    AgentOrchestrator_run ST_GITHUB ST_WEATHER sample_format always_answering
      plans_chained no_verdict "repos" ready_world = (Ok resp, w')
    /\ ar_success resp = true
    /\ tool_calls w' = 2%nat
    /\ slept (log w') = 0%nat.
Proof.
  destruct (pipeline_all_tools_answer ST_GITHUB ST_WEATHER sample_format
              always_answering plans_chained no_verdict "repos" chained_plan
              ready_world _ eq_refl
              (fun self _ _ =>
                 ex_intro _ (payload_result (tool_type self))
                   (conj eq_refl eq_refl)))
    as (resp & w' & Hrun & _ & _ & _ & _ & _ & Hcalls & _ & Hslept & _ & Hok).
  - cbn. split; [constructor|]. split; [|exact I].
    constructor; [apply elem_of_cons; left; reflexivity|constructor].
  - constructor; [exists (GitHubTool ST_GITHUB); vm_compute; reflexivity|].
    constructor; [exists (WeatherTool ST_WEATHER); vm_compute; reflexivity|].
    constructor.
  - exists resp, w'. split; [exact Hrun|].
    split; [apply Hok; [reflexivity|discriminate]|].
    split; [exact Hcalls|exact Hslept].
Defined.

(** ** Runs on the sample inputs *)

(** Three completed results out of four: score 3/4, valid, one issue. *)
Example fallback_verification_three_of_four :
  _create_fallback_verification "task" three_of_four
  = mkVerificationResult true (Q2Qc (3 # 4))
      ["Step 4 failed: City not found: Atlantis"] [].
Proof. reflexivity. Qed.

(** A task without keyword: one search step on the task itself. *)
Example fallback_plan_without_keyword :
  _create_fallback_plan ST_GITHUB ST_WEATHER "hello there"
  = Ok (mkExecutionPlan "hello there"
          [mkPlanStep 1 "Search GitHub for relevant repositories" ST_GITHUB
             (<["query" := VStr "hello there"]> (<["limit" := VInt 5]> ∅)) []]
          "Fallback plan generated from keyword extraction").
Proof. reflexivity. Qed.

(** Both keyword sets: a search step and a weather step, no dependency. *)
Example fallback_plan_with_both_keywords :
  match _create_fallback_plan ST_GITHUB ST_WEATHER
          "Find Python repos and weather in London" with
  | Ok plan =>
      map (fun s => (step_number s, tool s, parameters s !! "query",
                     parameters s !! "city", depends_on s)) (steps plan)
  | Raised _ => []
  end
  = [(1, ST_GITHUB, Some (VStr "Python repos London"), None, []);
     (2, ST_WEATHER, None, Some (VStr "London"), [])].
Proof. vm_compute. reflexivity. Qed.

(** The fallback planner raises when nothing is left of the word after a
    preposition. *)
Example fallback_plan_raises :
  _create_fallback_plan ST_GITHUB ST_WEATHER "weather in ..."
  = Raised "string index out of range".
Proof. vm_compute. reflexivity. Qed.

(** After construction the registry holds the two tools only. *)
Example registry_of_ready_world :
  registry ready_world !! ST_GITHUB = Some (GitHubTool ST_GITHUB)
  /\ registry ready_world !! ST_WEATHER = Some (WeatherTool ST_WEATHER)
  /\ registry ready_world !! ST_MAPS = None.
Proof. vm_compute. repeat split. Qed.

(** A plan of one search step with a search that always fails: FAILED,
    no success, no partial success. *)
Example executor_run_all_failed :
  let er := fst (ExecutorAgent_run sample_format always_failing search_plan
                   ready_world) in
  map status (step_results er) = [FAILED]
  /\ er_success er = false /\ partial_success er = false.
Proof. vm_compute. repeat split. Qed.

(** Two attempts: the first one fails, also after recovery (six failing
    calls); the second one succeeds on its first call and is returned. *)
Example run_with_retry_second_attempt :
  let rw := run_with_retry ST_GITHUB ST_WEATHER sample_format recovering
              plans_search no_verdict "repos" 2 ready_world in
  match fst rw with
  | Ok (Some response) =>
      (ar_success response, map status (step_results (execution response)),
       completeness_score (verification response))
  | _ => (false, [], 0%Qc)
  end = (true, [COMPLETED], 1%Qc)
  /\ tool_calls (snd rw) = 7%nat.
Proof. vm_compute. split; reflexivity. Qed.

(** Two attempts that both fail with the same score: the first response
    is kept. *)
Example run_with_retry_keeps_first_on_tie :
  let rw := run_with_retry ST_GITHUB ST_WEATHER sample_format always_failing
              plans_search no_verdict "repos" 2 ready_world in
  match fst rw with
  | Ok (Some response) =>
      Some (ar_success response,
            completeness_score (verification response))
  | _ => None
  end = Some (false, 0%Qc)
  /\ fst rw
     = match fst (AgentOrchestrator_run ST_GITHUB ST_WEATHER sample_format
                    always_failing plans_search no_verdict "repos"
                    (snd (emit (LogAttempt 1 2) ready_world))) with
       | Ok first => Ok (Some first)
       | Raised e => Raised e
       end.
Proof. vm_compute. split; reflexivity. Qed.
